(** * File registry handlers of [files.py]: a shallow embedding

    The Flask blueprint [files_bp] couples two stores: the relational
    tables reached through SQLAlchemy ([Docente], [Materia], [Curso],
    [Archivo]) and the directory [UPLOAD_FOLDER].  Each handler is
    embedded as a computation in a small state-and-exception monad
    whose state is the SQLAlchemy session (committed rows, rows pending
    in the open transaction), the directory contents and a log of the
    mutations performed so far. *)

From Stdlib Require Import ZArith String Ascii List Lia Bool.
From Stdlib Require Import Sorting.Sorted Sorting.Permutation.
From stdpp Require Import base strings gmap list.
Import ListNotations.

Local Open Scope string_scope.
Local Open Scope Z_scope.

(** ** Strings the way Python treats them (text as UTF-8 bytes) *)

Module Py.

(** [str.isspace] on the ASCII range: TAB..CR, FS..US and SPACE. *)
Definition isspace (c : ascii) : bool :=
  let n := nat_of_ascii c in
  ((9 <=? n) && (n <=? 13) || (28 <=? n) && (n <=? 32))%nat.

Fixpoint lstrip (s : string) : string :=
  match s with
  | String c s' => if isspace c then lstrip s' else s
  | EmptyString => EmptyString
  end.

(** Drops the trailing run of white space; a string of white space
    only becomes empty. *)
Fixpoint rstrip (s : string) : string :=
  match s with
  | String c s' =>
      match rstrip s' with
      | EmptyString => if isspace c then EmptyString else String c EmptyString
      | r => String c r
      end
  | EmptyString => EmptyString
  end.

(** [s.strip()] *)
Definition strip (s : string) : string := rstrip (lstrip s).

Definition lower_char (c : ascii) : ascii :=
  let n := nat_of_ascii c in
  if ((65 <=? n) && (n <=? 90))%nat then ascii_of_nat (n + 32) else c.

(** Letters [A]..[Z] become [a]..[z], every other byte stays: what
    [s.lower()] does to ASCII text (a sanitised file name), and what
    SQLite's [lower()] does to any text. *)
Fixpoint lower (s : string) : string :=
  match s with
  | String c s' => String (lower_char c) (lower s')
  | EmptyString => EmptyString
  end.

(** The second byte of a character U+00C0..U+00FF, whose first byte in
    UTF-8 is 0xC3: the capitals U+00C0..U+00DE, the sign U+00D7 apart,
    lie 0x20 below their small letters. *)
Definition latin1_lower (c : ascii) : ascii :=
  let n := nat_of_ascii c in
  if ((128 <=? n) && (n <=? 158) && negb (n =? 151))%nat
  then ascii_of_nat (n + 32) else c.

(** [s.lower()] on text as the request carries it, UTF-8 bytes, for
    the Basic Latin and Latin-1 Supplement blocks (the letters of the
    application's language); characters beyond U+00FF are kept. *)
Fixpoint str_lower (s : string) : string :=
  match s with
  | String c s' =>
      if (nat_of_ascii c =? 195)%nat then
        match s' with
        | String d s'' => String c (String (latin1_lower d) (str_lower s''))
        | EmptyString => String c EmptyString
        end
      else String (lower_char c) (str_lower s')
  | EmptyString => EmptyString
  end.

(** [s.isascii()] *)
Fixpoint isascii (s : string) : bool :=
  match s with
  | String c s' => (nat_of_ascii c <? 128)%nat && isascii s'
  | EmptyString => true
  end.

Fixpoint startswith (p s : string) : bool :=
  match p, s with
  | EmptyString, _ => true
  | String a p', String b s' => Ascii.eqb a b && startswith p' s'
  | String _ _, EmptyString => false
  end.

(** [p in s] *)
Fixpoint contains (p s : string) : bool :=
  startswith p s ||
  match s with
  | String _ s' => contains p s'
  | EmptyString => false
  end.

(** [s.endswith(suf)] *)
Fixpoint endswith (suf s : string) : bool :=
  String.eqb suf s ||
  match s with
  | String _ s' => endswith suf s'
  | EmptyString => false
  end.

(** Truth value of an optional string: [None] and [''] are falsy. *)
Definition truthy (o : option string) : bool :=
  match o with
  | Some (String _ _) => true
  | _ => false
  end.

End Py.

(** ** [werkzeug.utils.secure_filename], ASCII input on a POSIX host

    The handlers are verified for an arbitrary sanitiser (a section
    variable below); this instance is the one used on concrete runs. *)

Module Werkzeug.

Definition safe_char (c : ascii) : bool :=
  let n := nat_of_ascii c in
  ((48 <=? n) && (n <=? 57) || (65 <=? n) && (n <=? 90)
   || (97 <=? n) && (n <=? 122) || (n =? 95) || (n =? 46) || (n =? 45))%nat.

Definition dot_or_underscore (c : ascii) : bool :=
  let n := nat_of_ascii c in ((n =? 46) || (n =? 95))%nat.

(** ["_".join(filename.split())] after each ["/"] became a blank. *)
Fixpoint join_words (pending_sep started : bool) (s : string) : string :=
  match s with
  | EmptyString => EmptyString
  | String c s' =>
      if Py.isspace c || Ascii.eqb c "/"%char
      then join_words started started s'
      else
        let rest := String c (join_words false true s') in
        if pending_sep then String "_"%char rest else rest
  end.

Fixpoint keep_safe (s : string) : string :=
  match s with
  | EmptyString => EmptyString
  | String c s' => if safe_char c then String c (keep_safe s') else keep_safe s'
  end.

Fixpoint lstrip_chars (s : string) : string :=
  match s with
  | String c s' => if dot_or_underscore c then lstrip_chars s' else s
  | EmptyString => EmptyString
  end.

Fixpoint rstrip_chars (s : string) : string :=
  match s with
  | String c s' =>
      match rstrip_chars s' with
      | EmptyString =>
          if dot_or_underscore c then EmptyString else String c EmptyString
      | r => String c r
      end
  | EmptyString => EmptyString
  end.

Definition secure_filename (filename : string) : string :=
  rstrip_chars (lstrip_chars (keep_safe (join_words false false filename))).

End Werkzeug.

(** ** Data model *)

(** [datetime]: the components [utcnow()] yields.  Rows are ordered on
    them lexicographically, which is the chronological order. *)
Record datetime := mkDatetime {
  dt_year : nat; dt_month : nat; dt_day : nat;
  dt_hour : nat; dt_minute : nat; dt_second : nat; dt_microsecond : nat }.

Record Docente := mkDocente { docente_id : Z; docente_nombre : string }.

Record Materia := mkMateria { materia_id : Z; materia_nombre : string }.

Record Curso := mkCurso {
  curso_id : Z; curso_docente_id : Z; curso_materia_id : Z;
  curso_periodo : string }.

Record Archivo := mkArchivo {
  archivo_nombre : string; archivo_fecha_subida : datetime;
  archivo_docente_id : Z; archivo_curso_id : Z }.

(** The four tables, each in row order. *)
Record database := mkDatabase {
  docentes : list Docente; materias : list Materia;
  cursos : list Curso; archivos : list Archivo }.

(** What persists between requests: the committed tables and the
    contents of [UPLOAD_FOLDER], keyed by file name. *)
Record world := mkWorld {
  w_db : database;
  w_blobs : gmap string (list Byte.byte) }.

(** ** Exceptions, fault sites, the mutation log *)

Inductive exn :=
| IntegrityError (msg : string)
| OtherError (msg : string).

(** [str(e)] *)
Definition str_exn (e : exn) : string :=
  match e with IntegrityError m | OtherError m => m end.

(** The calls that change one of the two stores, by source line.  The
    environment of a request says for each of them whether it raises. *)
Inductive site :=
| FlushMateria    (* upload, line 84 *)
| FlushCurso      (* upload, line 100 *)
| SaveBlob        (* upload, line 103 *)
| CommitUpload    (* upload, line 123 *)
| RemoveUpload    (* upload, lines 128 and 132 *)
| CommitDelete    (* delete_file, line 206 *)
| RemoveDelete    (* delete_file, line 210 *)
| RenameBlob      (* rename_file, line 254 *)
| CommitRename    (* rename_file, line 261 *)
| RenameBack.     (* rename_file, line 266 *)

Inductive event :=
| EvFlush
| EvCommit
| EvRollback
| EvSave (name : string)
| EvRemove (name : string)
| EvRename (src dst : string).

(** A request's surroundings besides the logged-in teacher: the clock
    and which of the store calls fail. *)
Record env := mkEnv {
  utcnow : datetime;
  fault : site -> option exn }.

Definition no_fault : site -> option exn := fun _ => None.

(** ** The session monad *)

Record session := mkSession {
  committed : database;
  pending : database;
  disk : gmap string (list Byte.byte);
  trace : list event }.

Inductive result (A : Type) :=
| Ok (a : A)
| Raise (e : exn).
Arguments Ok {A} a.
Arguments Raise {A} e.

Definition M (A : Type) : Type := session -> result A * session.

Definition ret {A} (a : A) : M A := fun s => (Ok a, s).

Definition bind {A B} (c : M A) (k : A -> M B) : M B :=
  fun s => match c s with
           | (Ok a, s') => k a s'
           | (Raise e, s') => (Raise e, s')
           end.

Definition raise {A} (e : exn) : M A := fun s => (Raise e, s).

(** [try: body except Exception as e: handler e] *)
Definition try_except {A} (body : M A) (handler : exn -> M A) : M A :=
  fun s => match body s with
           | (Ok a, s') => (Ok a, s')
           | (Raise e, s') => handler e s'
           end.

Notation "x <- c ;; k" := (bind c (fun x => k))
  (at level 100, c at next level, right associativity).
Notation "c ;;; k" := (bind c (fun _ => k))
  (at level 100, right associativity).

Definition log (ev : event) (s : session) : session :=
  mkSession (committed s) (pending s) (disk s) (trace s ++ [ev]).

Definition set_pending (d : database) (s : session) : session :=
  mkSession (committed s) d (disk s) (trace s).

Definition set_disk (m : gmap string (list Byte.byte)) (s : session) : session :=
  mkSession (committed s) (pending s) m (trace s).

(** A store call at site [st]: raises what the environment schedules
    there, otherwise applies [f] and logs [ev]. *)
Definition mutate (flt : site -> option exn) (st : site) (ev : event)
    (f : session -> session) : M unit :=
  fun s => match flt st with
           | Some e => (Raise e, s)
           | None => (Ok tt, log ev (f s))
           end.

(** ** The two stores as the handlers reach them *)

(** [Model.query.filter_by(...).first()] *)
Definition first_where {A} (p : A -> bool) (rows : list A) : option A :=
  List.find p rows.

(** [db.session.delete(row)] for the first row satisfying [p]. *)
Fixpoint delete_first {A} (p : A -> bool) (rows : list A) : list A :=
  match rows with
  | [] => []
  | r :: rows' => if p r then rows' else r :: delete_first p rows'
  end.

(** Attribute assignment on the object [first()] returned. *)
Fixpoint update_first {A} (p : A -> bool) (f : A -> A) (rows : list A) : list A :=
  match rows with
  | [] => []
  | r :: rows' => if p r then f r :: rows' else r :: update_first p f rows'
  end.

(** The integer primary key an inserted row receives: one more than
    the largest key of the table (SQLite's rowid rule). *)
Definition next_id (ids : list Z) : Z := 1 + fold_right Z.max 0 ids.

Definition with_materias (ms : list Materia) (d : database) : database :=
  mkDatabase (docentes d) ms (cursos d) (archivos d).

Definition with_cursos (cs : list Curso) (d : database) : database :=
  mkDatabase (docentes d) (materias d) cs (archivos d).

Definition with_archivos (fs : list Archivo) (d : database) : database :=
  mkDatabase (docentes d) (materias d) (cursos d) fs.

Definition has_nombre (nombre : string) (a : Archivo) : bool :=
  String.eqb (archivo_nombre a) nombre.

Definition materia_named (nombre : string) (m : Materia) : bool :=
  String.eqb (materia_nombre m) nombre.

Definition curso_matches (docente materia : Z) (periodo : string) (c : Curso) : bool :=
  (curso_docente_id c =? docente) && (curso_materia_id c =? materia)
  && String.eqb (curso_periodo c) periodo.

Module Db.

(** [Materia.query.filter_by(nombre=nombre).first()] *)
Definition Materia_first (nombre : string) : M (option Materia) :=
  fun s => (Ok (first_where (materia_named nombre) (materias (pending s))), s).

(** [Curso.query.filter_by(docente_id=.., materia_id=.., periodo=..).first()] *)
Definition Curso_first (docente materia : Z) (periodo : string) : M (option Curso) :=
  fun s => (Ok (first_where (curso_matches docente materia periodo)
                  (cursos (pending s))), s).

(** [Archivo.query.filter_by(nombre=nombre).first()] *)
Definition Archivo_first (nombre : string) : M (option Archivo) :=
  fun s => (Ok (first_where (has_nombre nombre) (archivos (pending s))), s).

(** [m = Materia(nombre=..); db.session.add(m); db.session.flush()] *)
Definition add_Materia (flt : site -> option exn) (st : site) (nombre : string)
    : M Materia :=
  fun s =>
    let m := mkMateria (next_id (map materia_id (materias (pending s)))) nombre in
    match flt st with
    | Some e => (Raise e, s)
    | None =>
        (Ok m, log EvFlush
                 (set_pending (with_materias (materias (pending s) ++ [m]) (pending s)) s))
    end.

(** [c = Curso(...); db.session.add(c); db.session.flush()] *)
Definition add_Curso (flt : site -> option exn) (st : site)
    (docente materia : Z) (periodo : string) : M Curso :=
  fun s =>
    let c := mkCurso (next_id (map curso_id (cursos (pending s))))
               docente materia periodo in
    match flt st with
    | Some e => (Raise e, s)
    | None =>
        (Ok c, log EvFlush
                 (set_pending (with_cursos (cursos (pending s) ++ [c]) (pending s)) s))
    end.

(** [db.session.add(Archivo(...))]: written out at the next commit. *)
Definition add_Archivo (a : Archivo) : M unit :=
  fun s => (Ok tt, set_pending (with_archivos (archivos (pending s) ++ [a]) (pending s)) s).

(** Assignments to the attributes of the first row named [nombre]. *)
Definition update_Archivo (nombre : string) (f : Archivo -> Archivo) : M unit :=
  fun s => (Ok tt, set_pending
                     (with_archivos (update_first (has_nombre nombre) f
                                       (archivos (pending s))) (pending s)) s).

(** [db.session.delete(archivo_db)], the first row named [nombre]. *)
Definition delete_Archivo (nombre : string) : M unit :=
  fun s => (Ok tt, set_pending
                     (with_archivos (delete_first (has_nombre nombre)
                                       (archivos (pending s))) (pending s)) s).

(** [db.session.commit()] *)
Definition commit (flt : site -> option exn) (st : site) : M unit :=
  mutate flt st EvCommit
    (fun s => mkSession (pending s) (pending s) (disk s) (trace s)).

(** [db.session.rollback()] *)
Definition rollback : M unit :=
  fun s => (Ok tt, log EvRollback
                     (mkSession (committed s) (committed s) (disk s) (trace s))).

End Db.

(** The directory is a flat one on a case-sensitive file system, its
    entries keyed by file name: [os.path.join(UPLOAD_FOLDER, name)] is
    the entry [name] when [name] is a plain file name.  A name with a
    path separator, or [.] or [..], which [os.path] resolves to some
    other entry or to a place outside the directory, is not covered
    ([plain_name] below tells the names that are). *)
Module Fs.

(** [os.path.exists(os.path.join(UPLOAD_FOLDER, name))] *)
Definition exists_ (name : string) : M bool :=
  fun s => (Ok (bool_decide (is_Some (disk s !! name))), s).

(** [file.save(filepath)]: creates the file or replaces its contents. *)
Definition save (flt : site -> option exn) (st : site)
    (name : string) (content : list Byte.byte) : M unit :=
  mutate flt st (EvSave name) (fun s => set_disk (<[name := content]> (disk s)) s).

(** [os.remove(filepath)] *)
Definition remove (flt : site -> option exn) (st : site) (name : string) : M unit :=
  fun s => match disk s !! name with
           | None => (Raise (OtherError "FileNotFoundError"), s)
           | Some _ =>
               mutate flt st (EvRemove name) (fun s => set_disk (delete name (disk s)) s) s
           end.

(** [os.rename(src, dst)]: [dst] is replaced when it exists. *)
Definition rename (flt : site -> option exn) (st : site) (src dst : string) : M unit :=
  fun s => match disk s !! src with
           | None => (Raise (OtherError "FileNotFoundError"), s)
           | Some content =>
               mutate flt st (EvRename src dst)
                 (fun s => set_disk (<[dst := content]> (delete src (disk s))) s) s
           end.

End Fs.

(** ** Responses *)

(** One element of the JSON array [list_files] returns. *)
Record file_entry := mkEntry {
  e_nombre : string; e_fecha_subida : string; e_docente : string;
  e_materia : string; e_periodo : string; e_etiqueta_curso : string }.

Inductive response :=
| Text (body : string) (status : Z)
| Json (entries : list file_entry)
| SendFile (content : list Byte.byte) (as_attachment : bool)
| Aborted (status : Z)
| Unauthorized.

(** How a request ends: the view returned, or an exception left it. *)
Inductive outcome :=
| Returned (r : response)
| Unhandled (e : exn).

(** Runs a view in a fresh session over [w].  What the session left
    uncommitted is dropped when the request is torn down. *)
Definition run_request (h : M response) (w : world) : outcome * world * list event :=
  match h (mkSession (w_db w) (w_db w) (w_blobs w) []) with
  | (Ok r, s) => (Returned r, mkWorld (committed s) (disk s), trace s)
  | (Raise e, s) => (Unhandled e, mkWorld (committed s) (disk s), trace s)
  end.

(** [@login_required]: a request without a logged-in teacher never
    reaches the view. *)
Definition login_required {A} (view : Docente -> A -> M response)
    (who : option Docente) (args : A) : M response :=
  match who with
  | Some teacher => view teacher args
  | None => ret Unauthorized
  end.

(** ** Request payloads *)

(** [request.files.get('file')]: a werkzeug [FileStorage]. *)
Record FileStorage := mkFile { filename : string; stream : list Byte.byte }.

(** The multipart form of [POST /upload]; an absent field is [None]. *)
Record upload_form := mkUpload {
  form_file : option FileStorage;
  form_materia : option string;
  form_periodo : option string }.

(** What [request.get_json(force=True)] returns for [PUT /rename] when
    it is a JSON object that Python takes as true, one with at least
    one key: the strings under its keys [old_name] and [new_name],
    [None] for a key it lacks.  The view gets an [option rename_json];
    there [None] is a body that parsed to a value Python takes as
    false, [null] or the empty object.  A body that does not parse
    never reaches the view's first test, [get_json] raises. *)
Record rename_json := mkRename {
  old_name : option string;
  new_name : option string }.

(** ** Timestamps *)

Definition digit (n : nat) : ascii := ascii_of_nat (48 + n mod 10).

Definition pad2 (n : nat) : string :=
  String (digit (n / 10)) (String (digit n) EmptyString).

Definition pad4 (n : nat) : string :=
  String (digit (n / 1000)) (String (digit (n / 100)) (pad2 n)).

(** [d.strftime("%d/%m/%Y %H:%M")] *)
Definition strftime (d : datetime) : string :=
  pad2 (dt_day d) +:+ "/" +:+ pad2 (dt_month d) +:+ "/" +:+ pad4 (dt_year d)
  +:+ " " +:+ pad2 (dt_hour d) +:+ ":" +:+ pad2 (dt_minute d).

Definition dt_fields (d : datetime) : list nat :=
  [dt_year d; dt_month d; dt_day d; dt_hour d; dt_minute d; dt_second d;
   dt_microsecond d].

Fixpoint lex_leb (a b : list nat) : bool :=
  match a, b with
  | [], _ => true
  | _ :: _, [] => false
  | x :: a', y :: b' => (x <? y)%nat || (x =? y)%nat && lex_leb a' b'
  end.

(** [a <= b] on timestamps. *)
Definition dt_leb (a b : datetime) : bool := lex_leb (dt_fields a) (dt_fields b).

(** ** The views *)

(** Every path of the views is [os.path.join(UPLOAD_FOLDER, name)]; the
    directory is modelled by its contents, keyed by [name]. *)
Definition UPLOAD_FOLDER : string := "uploads".

Section Views.

(** [werkzeug.utils.secure_filename] *)
Variable secure_filename : string -> string.

(** [POST /upload] *)
Definition upload (ev : env) (current_user : Docente) (form : upload_form)
    : M response :=
  match form_file form with
  | None => ret (Text "No se encontró el archivo o el nombre está vacío." 400)
  | Some file =>
    if String.eqb (filename file) ""
    then ret (Text "No se encontró el archivo o el nombre está vacío." 400)
    else
    if negb (Py.truthy (form_materia form)) || negb (Py.truthy (form_periodo form))
    then ret (Text "Faltan datos de Materia o Periodo." 400)
    else
    let nombre_materia := Py.strip (default "" (form_materia form)) in
    let periodo := Py.strip (default "" (form_periodo form)) in
    let filename := secure_filename (filename file) in
    let cleanup :=
      Db.rollback ;;;
      present <- Fs.exists_ filename ;;
      if present then Fs.remove (fault ev) RemoveUpload filename else ret tt in
    try_except
      (found <- Db.Materia_first nombre_materia ;;
       materia <- match found with
                  | Some m => ret m
                  | None => Db.add_Materia (fault ev) FlushMateria nombre_materia
                  end ;;
       found <- Db.Curso_first (docente_id current_user) (materia_id materia) periodo ;;
       curso <- match found with
                | Some c => ret c
                | None => Db.add_Curso (fault ev) FlushCurso
                            (docente_id current_user) (materia_id materia) periodo
                end ;;
       Fs.save (fault ev) SaveBlob filename (stream file) ;;;
       archivo_existente <- Db.Archivo_first filename ;;
       mensaje <- match archivo_existente with
                  | Some _ =>
                      Db.update_Archivo filename
                        (fun a => mkArchivo (archivo_nombre a) (utcnow ev)
                                    (docente_id current_user) (curso_id curso)) ;;;
                      ret ("Archivo actualizado y asignado a "
                           +:+ materia_nombre materia +:+ " - " +:+ periodo +:+ ".")
                  | None =>
                      Db.add_Archivo (mkArchivo filename (utcnow ev)
                                        (docente_id current_user) (curso_id curso)) ;;;
                      ret ("Archivo subido y asignado a "
                           +:+ materia_nombre materia +:+ " - " +:+ periodo +:+ ".")
                  end ;;
       Db.commit (fault ev) CommitUpload ;;;
       ret (Text mensaje 200))
      (fun e =>
         match e with
         | IntegrityError _ =>
             cleanup ;;;
             ret (Text "Error: Ya existe un archivo con ese nombre." 500)
         | OtherError _ =>
             cleanup ;;;
             ret (Text ("Error al registrar en DB: " +:+ str_exn e
                        +:+ ". Archivo eliminado del disco.") 500)
         end)
  end.

(** [GET /view/<filename>] and [GET /downloads/<filename>] share
    [send_from_directory]; a missing file ends in [abort(404)]. *)
Definition send_from_directory (name : string) (as_attachment : bool) : M response :=
  fun s => match disk s !! name with
           | Some content => (Ok (SendFile content as_attachment), s)
           | None => (Ok (Aborted 404), s)
           end.

Definition view_file (ev : env) (current_user : Docente) (filename : string)
    : M response :=
  send_from_directory filename false.

Definition download_file (ev : env) (current_user : Docente) (filename : string)
    : M response :=
  send_from_directory filename true.

(** [DELETE /delete/<filename>] *)
Definition delete_file (ev : env) (current_user : Docente) (filename : string)
    : M response :=
  archivo_db <- Db.Archivo_first filename ;;
  match archivo_db with
  | Some _ => Db.delete_Archivo filename ;;; Db.commit (fault ev) CommitDelete
  | None => ret tt
  end ;;;
  present <- Fs.exists_ filename ;;
  if present
  then Fs.remove (fault ev) RemoveDelete filename ;;;
       ret (Text "Archivo eliminado correctamente." 200)
  else ret (Text "Registro eliminado, pero el archivo físico no fue encontrado." 202).

(** The name [rename_file] gives the file: sanitised, with [".pdf"]
    appended unless it already ends so (in any letter case). *)
Definition final_new_name (new_name_raw : string) : string :=
  let clean_new_name := secure_filename new_name_raw in
  if negb (Py.endswith ".pdf" (Py.lower clean_new_name))
  then clean_new_name +:+ ".pdf"
  else clean_new_name.

(** [PUT /rename] *)
Definition rename_file (ev : env) (current_user : Docente)
    (data : option rename_json) : M response :=
  match data with
  | None => ret (Text "No se recibió información JSON." 400)
  | Some data =>
    if negb (Py.truthy (old_name data)) || negb (Py.truthy (new_name data))
    then ret (Text "Se requiere el nombre antiguo y el nuevo nombre" 400)
    else
    let old_name := default "" (old_name data) in
    let final_new_name := final_new_name (default "" (new_name data)) in
    old_present <- Fs.exists_ old_name ;;
    if negb old_present then ret (Text "El archivo original no existe." 404) else
    new_present <- Fs.exists_ final_new_name ;;
    if new_present
    then ret (Text "Ya existe un archivo físico con ese nuevo nombre." 400)
    else
    archivo_db <- Db.Archivo_first old_name ;;
    match archivo_db with
    | None => ret (Text "Error: El archivo no se encontró en la base de datos." 404)
    | Some _ =>
      clash <- Db.Archivo_first final_new_name ;;
      match clash with
      | Some _ => ret (Text "Ya existe un registro en la DB con ese nuevo nombre." 400)
      | None =>
        moved <- try_except
                   (Fs.rename (fault ev) RenameBlob old_name final_new_name ;;;
                    ret None)
                   (fun e =>
                      ret (Some (Text ("Error en el sistema de archivos: "
                                       +:+ str_exn e) 500))) ;;
        match moved with
        | Some early => ret early
        | None =>
          try_except
            (Db.update_Archivo old_name
               (fun a => mkArchivo final_new_name (archivo_fecha_subida a)
                           (archivo_docente_id a) (archivo_curso_id a)) ;;;
             Db.commit (fault ev) CommitRename ;;;
             ret (Text ("Archivo renombrado a " +:+ final_new_name +:+ ".") 200))
            (fun e =>
               Db.rollback ;;;
               Fs.rename (fault ev) RenameBack final_new_name old_name ;;;
               ret (Text ("Error al actualizar la DB: " +:+ str_exn e
                          +:+ ". Se revirtió el cambio en el disco.") 500))
        end
      end
    end
  end.

(** [GET /list]: the row the joined query selects. *)
Record list_row := mkRow {
  row_nombre : string; row_fecha_subida : datetime;
  row_docente_nombre : string; row_materia_nombre : string;
  row_periodo : string }.

(** [Archivo JOIN Docente JOIN Curso JOIN Materia] on the three key
    equalities, in row order. *)
Definition joined (d : database) : list list_row :=
  a ← archivos d;
  t ← List.filter (fun t => docente_id t =? archivo_docente_id a) (docentes d);
  c ← List.filter (fun c => curso_id c =? archivo_curso_id a) (cursos d);
  m ← List.filter (fun m => materia_id m =? curso_materia_id c) (materias d);
  [mkRow (archivo_nombre a) (archivo_fecha_subida a) (docente_nombre t)
     (materia_nombre m) (curso_periodo c)].

(** SQL [LIKE]: [%] stands for any run of characters, [_] for any
    one character, every other character for itself, an ASCII letter
    in either case. *)
Fixpoint like (pattern s : string) : bool :=
  match pattern with
  | EmptyString => match s with EmptyString => true | _ => false end
  | String p pattern' =>
      if Ascii.eqb p "%"%char then
        (fix any_run (s : string) : bool :=
           like pattern' s ||
           match s with
           | String _ s' => any_run s'
           | EmptyString => false
           end) s
      else
        match s with
        | EmptyString => false
        | String c s' =>
            (Ascii.eqb p "_"%char
             || Ascii.eqb (Py.lower_char p) (Py.lower_char c))
            && like pattern' s'
        end
  end.

(** [column.ilike(pattern)], which SQLAlchemy renders as
    [lower(column) LIKE lower(pattern)]: both sides folded by the
    database, ASCII letters only. *)
Definition ilike (column pattern : string) : bool :=
  like (Py.lower pattern) (Py.lower column).

(** The [WHERE] clause added for a non-empty search string. *)
Definition search_filter (search_query : string) (r : list_row) : bool :=
  let pattern := "%" +:+ search_query +:+ "%" in
  ilike (row_nombre r) pattern || ilike (row_materia_nombre r) pattern
  || ilike (row_periodo r) pattern.

(** [ORDER BY fecha_subida DESC]; rows of equal timestamp keep their
    row order. *)
Fixpoint insert_desc (r : list_row) (rows : list list_row) : list list_row :=
  match rows with
  | [] => [r]
  | r' :: rows' =>
      if dt_leb (row_fecha_subida r') (row_fecha_subida r)
      then r :: rows
      else r' :: insert_desc r rows'
  end.

Definition order_by_fecha_desc (rows : list list_row) : list list_row :=
  fold_right insert_desc [] rows.

(** [query.all()] *)
Definition list_query (search_query : string) (d : database) : list list_row :=
  let rows := joined d in
  let rows := match search_query with
              | EmptyString => rows
              | _ => List.filter (search_filter search_query) rows
              end in
  order_by_fecha_desc rows.

(** The rows that pass the [os.path.exists] check of the loop. *)
Definition listed_rows (search_query : string) (s : session) : list list_row :=
  List.filter (fun r => bool_decide (is_Some (disk s !! row_nombre r)))
    (list_query search_query (pending s)).

Definition entry_of (r : list_row) : file_entry :=
  mkEntry (row_nombre r) (strftime (row_fecha_subida r)) (row_docente_nombre r)
    (row_materia_nombre r) (row_periodo r)
    (row_materia_nombre r +:+ " (" +:+ row_periodo r +:+ ")").

(** [GET /list?search=...] *)
Definition list_files (ev : env) (current_user : Docente) (search : option string)
    : M response :=
  let search_query := Py.str_lower (default "" search) in
  fun s => (Ok (Json (map entry_of (listed_rows search_query s))), s).

End Views.

(** ** The blueprint's routes *)

Inductive request :=
| PostUpload (form : upload_form)
| GetList (search : option string)
| GetView (name : string)
| GetDownload (name : string)
| DeleteFile (name : string)
| PutRename (data : option rename_json).

(** One HTTP exchange: its surroundings, who is logged in, the route. *)
Record call := mkCall {
  call_env : env;
  call_user : option Docente;
  call_request : request }.

Section Routes.

Variable secure_filename : string -> string.

Definition dispatch (c : call) : M response :=
  match call_request c with
  | PostUpload form =>
      login_required (upload secure_filename (call_env c)) (call_user c) form
  | GetList search => login_required (list_files (call_env c)) (call_user c) search
  | GetView name => login_required (view_file (call_env c)) (call_user c) name
  | GetDownload name => login_required (download_file (call_env c)) (call_user c) name
  | DeleteFile name => login_required (delete_file (call_env c)) (call_user c) name
  | PutRename data =>
      login_required (rename_file secure_filename (call_env c)) (call_user c) data
  end.

(** The state one exchange leaves. *)
Definition serve (w : world) (c : call) : world := (run_request (dispatch c) w).1.2.

(** The state a sequence of exchanges leaves. *)
Definition serve_all (w : world) (cs : list call) : world := fold_left serve cs w.

End Routes.

(** ** Data for the upload form *)

(** One element of the ["materias"] array. *)
Record materia_item := mkItem { item_id : Z; item_nombre : string }.

(** The JSON object [data_for_upload] returns. *)
Record upload_data := mkData {
  data_error : option string;
  data_materias : list materia_item;
  data_periodos : list string }.

(** What a query may raise: [OperationalError], or anything else. *)
Inductive query_exn :=
| OperationalError (msg : string)
| QueryError (msg : string).

(** The two queries of [data_for_upload], lines 36 and 40. *)
Inductive query_site :=
| QueryMaterias
| QueryPeriodos.

(** [SELECT DISTINCT]: each value once, at its first occurrence. *)
Fixpoint distinct (values : list string) : list string :=
  match values with
  | [] => []
  | v :: values' =>
      v :: List.filter (fun v' => negb (String.eqb v' v)) (distinct values')
  end.

(** [db.session.query(Curso.periodo).filter(Curso.docente_id == id)] *)
Definition periodos_of (docente : Z) (cs : list Curso) : list string :=
  map curso_periodo (List.filter (fun c => curso_docente_id c =? docente) cs).

(** [GET /data_for_upload]: the body and the status. *)
Definition data_for_upload (qfault : query_site -> option query_exn)
    (current_user : Docente) : M (upload_data * Z) :=
  fun s =>
    let attempt : query_exn + upload_data :=
      match qfault QueryMaterias with
      | Some e => inl e
      | None =>
          let materias_list :=
            map (fun m => mkItem (materia_id m) (materia_nombre m))
              (materias (pending s)) in
          match qfault QueryPeriodos with
          | Some e => inl e
          | None =>
              let periodos_list :=
                distinct (periodos_of (docente_id current_user) (cursos (pending s))) in
              inr (mkData None materias_list periodos_list)
          end
      end in
    match attempt with
    | inr data => (Ok (data, 200), s)
    | inl (OperationalError _) =>
        (Ok (mkData (Some "Las tablas de la base de datos no están inicializadas.")
               [] [], 500), s)
    | inl (QueryError msg) =>
        (Ok (mkData (Some ("Error al obtener datos: " +:+ msg)) [] [], 500), s)
    end.

(** The view on the committed state [w], as [run_request] runs the
    others. *)
Definition run_data_for_upload (qfault : query_site -> option query_exn)
    (current_user : Docente) (w : world) : upload_data * Z * world :=
  match data_for_upload qfault current_user
          (mkSession (w_db w) (w_db w) (w_blobs w) []) with
  | (Ok r, s) => (r, mkWorld (committed s) (disk s))
  | (Raise _, s) => (mkData None [] [], 500, mkWorld (committed s) (disk s))
  end.

Definition no_query_fault : query_site -> option query_exn := fun _ => None.

(** ** The file names a request addresses *)

Section Addressed.

Variable secure_filename : string -> string.

(** The names under which a request may write, move or remove. *)
Definition addressed (r : request) : list string :=
  match r with
  | PostUpload form =>
      match form_file form with
      | Some file => [secure_filename (filename file)]
      | None => []
      end
  | DeleteFile name => [name]
  | PutRename (Some data) =>
      [default "" (old_name data);
       final_new_name secure_filename (default "" (new_name data))]
  | PutRename None | GetList _ | GetView _ | GetDownload _ => []
  end.

End Addressed.

(** A name that [os.path.join(UPLOAD_FOLDER, name)] takes to the entry
    of that very name: not empty, neither [.] nor [..], without a path
    separator and without a NUL. *)
Definition plain_name (name : string) : bool :=
  negb (String.eqb name "") && negb (String.eqb name ".")
  && negb (String.eqb name "..")
  && negb (Py.contains "/" name)
  && negb (Py.contains (String Ascii.zero EmptyString) name).

(** ** Keys and references of the tables *)

(** File names, and the primary keys of subjects and courses, are
    unique. *)
Definition keys_unique (d : database) : Prop :=
  NoDup (map archivo_nombre (archivos d))
  /\ NoDup (map materia_id (materias d))
  /\ NoDup (map curso_id (cursos d)).

(** Every file row names a course that exists, and every course a
    subject that exists. *)
Definition references_resolve (d : database) : Prop :=
  (forall a, In a (archivos d) -> exists c, In c (cursos d) /\ curso_id c = archivo_curso_id a)
  /\ (forall c, In c (cursos d) ->
        exists m, In m (materias d) /\ materia_id m = curso_materia_id c).

(** ** Vocabulary of the statements *)

Definition delete_full_success : response :=
  Text "Archivo eliminado correctamente." 200.

Definition delete_partial_success : response :=
  Text "Registro eliminado, pero el archivo físico no fue encontrado." 202.

Definition rename_old_missing : response :=
  Text "El archivo original no existe." 404.

Definition rename_new_on_disk : response :=
  Text "Ya existe un archivo físico con ese nuevo nombre." 400.

Definition rename_record_missing : response :=
  Text "Error: El archivo no se encontró en la base de datos." 404.

Definition rename_name_taken : response :=
  Text "Ya existe un registro en la DB con ese nuevo nombre." 400.

Definition count_nombre (nombre : string) (rows : list Archivo) : nat :=
  length (List.filter (has_nombre nombre) rows).

Definition curso_key (c : Curso) : Z * Z * string :=
  (curso_docente_id c, curso_materia_id c, curso_periodo c).

(** Whether [c] is a course of [docente] in [periodo] for a subject
    named [nombre]. *)
Definition course_of (docente : Z) (nombre periodo : string) (ms : list Materia)
    (c : Curso) : bool :=
  (curso_docente_id c =? docente) && String.eqb (curso_periodo c) periodo
  && existsb (fun m => (materia_id m =? curso_materia_id c) && materia_named nombre m) ms.

(** The number of [Curso] rows for the triple (teacher, subject name,
    period). *)
Definition course_count (docente : Z) (nombre periodo : string) (d : database) : nat :=
  length (List.filter (course_of docente nombre periodo (materias d)) (cursos d)).

(** Subject names are unique, and so are the triples of the courses. *)
Definition db_unique (d : database) : Prop :=
  NoDup (map materia_nombre (materias d)) /\ NoDup (map curso_key (cursos d)).

(** [newer_first r1 r2]: [r1] may stand before [r2] in the listing. *)
Definition newer_first (r1 r2 : list_row) : Prop :=
  dt_leb (row_fecha_subida r2) (row_fecha_subida r1) = true.

Definition wildcard (c : ascii) : bool := Ascii.eqb c "%" || Ascii.eqb c "_".

Fixpoint no_wildcard (s : string) : bool :=
  match s with
  | EmptyString => true
  | String c s' => negb (wildcard c) && no_wildcard s'
  end.

(** ** The states and requests of the concrete runs *)

Module Scenario.

Definition ana : Docente := mkDocente 1 "Ana".
Definition beto : Docente := mkDocente 2 "Beto".

Definition march : datetime := mkDatetime 2024 3 1 10 30 0 0.
Definition april : datetime := mkDatetime 2024 4 2 9 15 0 0.

Definition pdf : list Byte.byte := [Byte.x25; Byte.x50; Byte.x44; Byte.x46].

(** Two teachers and nothing else. *)
Definition db_fresh : database := mkDatabase [ana; beto] [] [] [].

(** Ana has filed [tarea.pdf] under Algebra, 2024-1. *)
Definition db_tarea : database :=
  mkDatabase [ana; beto] [mkMateria 1 "Algebra"] [mkCurso 1 1 1 "2024-1"]
    [mkArchivo "tarea.pdf" march 1 1].

(** Ana has filed [guia.pdf] under Álgebra, 2024-1. *)
Definition db_guia : database :=
  mkDatabase [ana; beto] [mkMateria 1 "Álgebra"] [mkCurso 1 1 1 "2024-1"]
    [mkArchivo "guia.pdf" march 1 1].

Definition w_fresh : world := mkWorld db_fresh ∅.
Definition w_guia : world := mkWorld db_guia {[ "guia.pdf" := pdf ]}.
Definition w_tarea : world := mkWorld db_tarea {[ "tarea.pdf" := pdf ]}.

(** The row of [tarea.pdf] without its file. *)
Definition w_row_only : world := mkWorld db_tarea ∅.

Definition quiet : env := mkEnv april no_fault.

(** The commit of an upload fails. *)
Definition upload_commit_fails : env :=
  mkEnv april (fun st => match st with
                         | CommitUpload => Some (OtherError "database is locked")
                         | _ => None
                         end).

(** The commit of a rename fails. *)
Definition rename_commit_fails : env :=
  mkEnv april (fun st => match st with
                         | CommitRename => Some (OtherError "database is locked")
                         | _ => None
                         end).

Definition form (name : string) (content : list Byte.byte) (materia periodo : string)
    : upload_form :=
  mkUpload (Some (mkFile name content)) (Some materia) (Some periodo).

End Scenario.

Import Scenario.

(** * Properties *)

(** ** Rows and tables *)

Lemma with_archivos_same d : with_archivos (archivos d) d = d.
Proof. by destruct d. Qed.

Lemma first_where_None_iff {A} (p : A -> bool) rows :
  first_where p rows = None <-> Forall (fun r => p r = false) rows.
Proof.
  unfold first_where. induction rows as [|r rows IH]; simpl.
  - split; [constructor | done].
  - destruct (p r) eqn:Hp.
    + split; [done | inversion 1; congruence].
    + rewrite IH. split; [by constructor | by inversion 1].
Qed.

Lemma delete_first_absent {A} (p : A -> bool) rows :
  first_where p rows = None -> delete_first p rows = rows.
Proof.
  unfold first_where. induction rows as [|r rows IH]; simpl; [done|].
  destruct (p r); [done | intros H; by rewrite IH].
Qed.

Lemma delete_first_length {A} (p : A -> bool) rows r :
  first_where p rows = Some r ->
  S (length (delete_first p rows)) = length rows.
Proof.
  unfold first_where. revert r. induction rows as [|r' rows IH]; simpl; [done|].
  intros r. destruct (p r'); [done|]. intros H. simpl. f_equal. by apply (IH r).
Qed.

(** With unique file names, deleting the first row of a name leaves no
    row of that name. *)
Lemma delete_first_unique nombre rows :
  NoDup (map archivo_nombre rows) ->
  first_where (has_nombre nombre) (delete_first (has_nombre nombre) rows) = None.
Proof.
  induction rows as [|r rows IH]; simpl; [done|].
  intros Hnd. apply NoDup_cons in Hnd as [Hnotin Hnd].
  destruct (has_nombre nombre r) eqn:Hr.
  - apply String.eqb_eq in Hr. subst nombre.
    apply first_where_None_iff, Forall_forall. intros a Ha.
    apply String.eqb_neq. intros Heq. apply Hnotin.
    rewrite <- Heq. by apply list_elem_of_fmap_2.
  - unfold first_where in *. simpl. rewrite Hr. by apply IH.
Qed.

(** ** Running a view *)

Ltac run_view :=
  unfold run_request, bind, ret, try_except, Db.Archivo_first, Db.delete_Archivo,
    Db.commit, Db.rollback, Fs.exists_, Fs.remove, Fs.rename, Fs.save, mutate, log,
    set_pending, set_disk; simpl.

(** The run of [delete_file] when its two store calls succeed. *)
Lemma delete_file_run ev u f w :
  fault ev CommitDelete = None -> fault ev RemoveDelete = None ->
  let rows := archivos (w_db w) in
  let db' := with_archivos (delete_first (has_nombre f) rows) (w_db w) in
  let committed_first :=
    match first_where (has_nombre f) rows with Some _ => [EvCommit] | None => [] end in
  run_request (delete_file ev u f) w =
    match w_blobs w !! f with
    | Some _ => (Returned delete_full_success, mkWorld db' (delete f (w_blobs w)),
                 (committed_first ++ [EvRemove f])%list)
    | None => (Returned delete_partial_success, mkWorld db' (w_blobs w), committed_first)
    end.
Proof.
  intros Hc Hr rows db' cf.
  unfold delete_file. run_view. subst rows db' cf.
  destruct (first_where (has_nombre f) (archivos (w_db w))) eqn:Hrec; simpl.
  - rewrite Hc. simpl. destruct (w_blobs w !! f) eqn:Hb; simpl.
    + rewrite Hb, Hr. reflexivity.
    + reflexivity.
  - rewrite (delete_first_absent _ _ Hrec), with_archivos_same.
    destruct (w_blobs w !! f) eqn:Hb; simpl.
    + rewrite Hb, Hr. by destruct w.
    + by destruct w.
Qed.

(** A failing commit leaves [delete_file] through the exception, with
    neither store changed: the file is not reached. *)
Lemma delete_file_commit_fails ev u f w e a :
  first_where (has_nombre f) (archivos (w_db w)) = Some a ->
  fault ev CommitDelete = Some e ->
  run_request (delete_file ev u f) w = (Unhandled e, w, []).
Proof.
  intros Hrec Hc. unfold delete_file. run_view. rewrite Hrec. simpl.
  rewrite Hc. by destruct w.
Qed.

(** C4: [delete_file] first deletes the first row of the name and
    commits (when there is one), then looks for the file.  With its
    store calls succeeding: the file removed, the answer is the full
    success, whether or not there was a row; the file absent, it is the
    partial success, a different response.  A row that was there is
    gone from the committed table (with unique file names no row of the
    name is left), and the commit comes before the removal: when it
    fails the file has not been touched. *)
Theorem delete_file_outcome ev u f w :
  let rows := archivos (w_db w) in
  let db' := with_archivos (delete_first (has_nombre f) rows) (w_db w) in
  let committed_first :=
    match first_where (has_nombre f) rows with Some _ => [EvCommit] | None => [] end in
  (fault ev CommitDelete = None -> fault ev RemoveDelete = None ->
   run_request (delete_file ev u f) w =
     match w_blobs w !! f with
     | Some _ => (Returned delete_full_success, mkWorld db' (delete f (w_blobs w)),
                  (committed_first ++ [EvRemove f])%list)
     | None => (Returned delete_partial_success, mkWorld db' (w_blobs w), committed_first)
     end)
  /\ delete_partial_success <> delete_full_success
  /\ (forall a, first_where (has_nombre f) rows = Some a ->
      S (length (archivos db')) = length rows)
  /\ (NoDup (map archivo_nombre rows) -> first_where (has_nombre f) (archivos db') = None)
  /\ (forall a e, first_where (has_nombre f) rows = Some a ->
      fault ev CommitDelete = Some e ->
      run_request (delete_file ev u f) w = (Unhandled e, w, [])).
Proof.
  intros rows db' cf. split; [|split; [discriminate|split; [|split]]].
  - intros Hc Hr. by apply delete_file_run.
  - intros a Hrow. subst db'. simpl. by apply (delete_first_length _ _ a).
  - intros Hnd. subst db'. simpl. by apply delete_first_unique.
  - intros a e Hrow Hc. by apply (delete_file_commit_fails _ _ _ _ _ a).
Qed.

(** C3, as the view is written: with neither a row nor a file of the
    name, [delete_file] answers with the 202 response it gives whenever
    the file is missing, and changes nothing. *)
Theorem delete_file_nothing_present ev u f w :
  first_where (has_nombre f) (archivos (w_db w)) = None ->
  w_blobs w !! f = None ->
  run_request (delete_file ev u f) w = (Returned delete_partial_success, w, []).
Proof.
  intros Hrec Hb. unfold delete_file. run_view. rewrite Hrec. simpl.
  rewrite Hb. by destruct w.
Qed.

(** ** Renaming *)

Arguments final_new_name : simpl never.

Ltac run_view_in H :=
  unfold run_request, bind, ret, try_except, Db.Archivo_first, Db.delete_Archivo,
    Db.update_Archivo, Db.commit, Db.rollback, Fs.exists_, Fs.remove, Fs.rename,
    Fs.save, mutate, log, set_pending, set_disk in H; simpl in H.

(** Moving a file to a free name and back restores the directory. *)
Lemma rename_there_and_back (m : gmap string (list Byte.byte)) src dst c :
  m !! src = Some c -> m !! dst = None ->
  <[src := c]> (delete dst (<[dst := c]> (delete src m))) = m.
Proof.
  intros Hsrc Hdst. apply map_eq. intros k.
  destruct (decide (k = src)) as [->|Hks].
  - by rewrite lookup_insert_eq.
  - rewrite lookup_insert_ne by done.
    destruct (decide (k = dst)) as [->|Hkd].
    + by rewrite lookup_delete_eq.
    + rewrite lookup_delete_ne by done. rewrite lookup_insert_ne by done.
      by rewrite lookup_delete_ne.
Qed.

(** C2: when the rename of the file went through and the commit of the
    renamed row did not, the view that reports the failure has first
    moved the file back: both stores are as before the request, the
    old name is on disk and the new one is not. *)
Theorem rename_file_compensates sf ev u old new w r w' tr :
  run_request (rename_file sf ev u (Some (mkRename (Some old) (Some new)))) w
    = (Returned r, w', tr) ->
  In (EvRename old (final_new_name sf new)) tr ->
  ~ In EvCommit tr ->
  w' = w
  /\ is_Some (w_blobs w' !! old)
  /\ w_blobs w' !! final_new_name sf new = None
  /\ tr = [EvRename old (final_new_name sf new); EvRollback;
           EvRename (final_new_name sf new) old]
  /\ exists e, fault ev CommitRename = Some e
       /\ r = Text ("Error al actualizar la DB: " +:+ str_exn e
                    +:+ ". Se revirtió el cambio en el disco.") 500.
Proof.
  intros Hrun Hin Hnc. unfold rename_file in Hrun. run_view_in Hrun.
  repeat (case_match; simpl in *; simplify_eq).
  all: try (exfalso; simpl in *; tauto).
  match goal with
  | Hmoved : <[_ := _]> _ !! _ = Some _ |- _ =>
      rewrite lookup_insert_eq in Hmoved; simplify_eq
  end.
  match goal with
  | Hfree : bool_decide _ = false |- _ =>
      apply bool_decide_eq_false in Hfree; rewrite <- eq_None_not_Some in Hfree
  end.
  rewrite rename_there_and_back by done.
  repeat split; [by destruct w | by eexists | done | by eexists].
Qed.

(** The run in which only the commit of the renamed row fails. *)
Lemma rename_file_commit_fails sf ev u old new w c a e :
  old <> "" -> new <> "" ->
  w_blobs w !! old = Some c ->
  w_blobs w !! final_new_name sf new = None ->
  first_where (has_nombre old) (archivos (w_db w)) = Some a ->
  first_where (has_nombre (final_new_name sf new)) (archivos (w_db w)) = None ->
  fault ev RenameBlob = None ->
  fault ev CommitRename = Some e ->
  fault ev RenameBack = None ->
  run_request (rename_file sf ev u (Some (mkRename (Some old) (Some new)))) w
  = (Returned (Text ("Error al actualizar la DB: " +:+ str_exn e
                     +:+ ". Se revirtió el cambio en el disco.") 500),
     w,
     [EvRename old (final_new_name sf new); EvRollback;
      EvRename (final_new_name sf new) old]).
Proof.
  intros Ho Hn Hold Hnew Hrec Hclash Hmv Hc Hback.
  unfold rename_file. run_view.
  destruct old as [|o old']; [done|]. destruct new as [|n new']; [done|]. simpl.
  rewrite Hold; simpl. rewrite Hnew; simpl. rewrite Hrec; simpl.
  rewrite Hclash; simpl. rewrite Hold; simpl. rewrite Hmv; simpl.
  rewrite Hc; simpl. rewrite lookup_insert_eq; simpl. rewrite Hback; simpl.
  rewrite rename_there_and_back by done. by destruct w.
Qed.

(** C6: the four checks of [rename_file], in their order.  Each failed
    check ends the request with a response of its own, before either
    store is touched. *)
Theorem rename_file_preconditions sf ev u old new w :
  old <> "" -> new <> "" ->
  let target := final_new_name sf new in
  let run := run_request (rename_file sf ev u (Some (mkRename (Some old) (Some new)))) w in
  (w_blobs w !! old = None -> run = (Returned rename_old_missing, w, []))
  /\ (is_Some (w_blobs w !! old) -> is_Some (w_blobs w !! target) ->
      run = (Returned rename_new_on_disk, w, []))
  /\ (is_Some (w_blobs w !! old) -> w_blobs w !! target = None ->
      first_where (has_nombre old) (archivos (w_db w)) = None ->
      run = (Returned rename_record_missing, w, []))
  /\ (is_Some (w_blobs w !! old) -> w_blobs w !! target = None ->
      is_Some (first_where (has_nombre old) (archivos (w_db w))) ->
      is_Some (first_where (has_nombre target) (archivos (w_db w))) ->
      run = (Returned rename_name_taken, w, []))
  /\ NoDup [rename_old_missing; rename_new_on_disk; rename_record_missing;
            rename_name_taken].
Proof.
  intros Ho Hn target run. subst run target.
  destruct old as [|o old']; [done|]. destruct new as [|n new']; [done|].
  unfold rename_file. run_view. destruct w as [d m]. simpl.
  repeat split.
  - intros H1. by rewrite H1.
  - intros [c H1] [c' H2]. rewrite H1; simpl. by rewrite H2.
  - intros [c H1] H2 H3. rewrite H1; simpl. rewrite H2; simpl. by rewrite H3.
  - intros [c H1] H2 [a H3] [a' H4].
    rewrite H1; simpl. rewrite H2; simpl. rewrite H3; simpl. by rewrite H4.
  - repeat (apply NoDup_cons_2;
              [rewrite ?elem_of_cons, elem_of_nil; intuition discriminate|]).
    apply NoDup_nil_2.
Qed.

(** ** Uploading *)

Ltac run_upload_in H :=
  unfold upload in H;
  unfold run_request, bind, ret, try_except, Db.Materia_first, Db.Curso_first,
    Db.Archivo_first, Db.add_Materia, Db.add_Curso, Db.add_Archivo,
    Db.update_Archivo, Db.commit, Db.rollback, Fs.exists_, Fs.remove, Fs.save,
    mutate, log, set_pending, set_disk in H; simpl in H.

(** C1, as the view is written: when the file was saved and the commit
    then failed, the view that reports the failure has rolled the
    session back and removed the file of the sanitised name.  The
    tables are as before the request and the directory holds no file of
    that name; when none was there before, the whole state is as
    before. *)
Theorem upload_failure_cleanup sf ev u file materia periodo w r w' tr :
  let name := sf (filename file) in
  run_request (upload sf ev u (mkUpload (Some file) materia periodo)) w
    = (Returned r, w', tr) ->
  In (EvSave name) tr ->
  ~ In EvCommit tr ->
  w_db w' = w_db w
  /\ w_blobs w' = delete name (w_blobs w)
  /\ (w_blobs w !! name = None -> w' = w)
  /\ (exists flushes, Forall (eq EvFlush) flushes
        /\ tr = (flushes ++ [EvSave name; EvRollback; EvRemove name])%list)
  /\ exists e, fault ev CommitUpload = Some e
       /\ r = match e with
              | IntegrityError _ => Text "Error: Ya existe un archivo con ese nombre." 500
              | OtherError _ =>
                  Text ("Error al registrar en DB: " +:+ str_exn e
                        +:+ ". Archivo eliminado del disco.") 500
              end.
Proof.
  intros name Hrun Hin Hnc. subst name. run_upload_in Hrun.
  repeat (case_match; simpl in *; simplify_eq).
  all: simpl in *.
  all: try (exfalso; intuition discriminate).
  all: try match goal with
           | Habsent : bool_decide _ = false |- _ =>
               by rewrite lookup_insert_eq in Habsent
           end.
  all: rewrite delete_insert_eq.
  all: split; [done|]; split; [done|].
  all: split; [intros Hfree; rewrite (delete_id _ _ Hfree); by destruct w|].
  all: split; [|by eexists].
  all: first [ by exists []
             | by exists [EvFlush]; split; [repeat constructor|]
             | by exists [EvFlush; EvFlush]; split; [repeat constructor|] ].
Qed.

Lemma first_where_app_absent {A} (p : A -> bool) rows r :
  first_where p rows = None -> p r = true -> first_where p (rows ++ [r]) = Some r.
Proof.
  unfold first_where. induction rows as [|r' rows IH]; simpl.
  - by intros _ ->.
  - destruct (p r'); [done | exact IH].
Qed.

Lemma first_where_holds {A} (p : A -> bool) rows r :
  first_where p rows = Some r -> p r = true /\ In r rows.
Proof. unfold first_where. intros H. apply find_some in H. tauto. Qed.

Lemma materia_named_new id nombre : materia_named nombre (mkMateria id nombre) = true.
Proof. apply String.eqb_refl. Qed.

Lemma curso_matches_new id docente materia periodo :
  curso_matches docente materia periodo (mkCurso id docente materia periodo) = true.
Proof.
  unfold curso_matches. simpl. by rewrite !Z.eqb_refl, String.eqb_refl.
Qed.

(** What a successful upload did, table by table. *)
Lemma upload_success sf ev u file materia periodo w body w' tr :
  run_request (upload sf ev u (mkUpload (Some file) materia periodo)) w
    = (Returned (Text body 200), w', tr) ->
  let nombre_materia := Py.strip (default "" materia) in
  let periodo' := Py.strip (default "" periodo) in
  let name := sf (filename file) in
  exists m c,
    (first_where (materia_named nombre_materia) (materias (w_db w)) = Some m
       /\ materias (w_db w') = materias (w_db w)
     \/ first_where (materia_named nombre_materia) (materias (w_db w)) = None
       /\ m = mkMateria (next_id (map materia_id (materias (w_db w)))) nombre_materia
       /\ materias (w_db w') = (materias (w_db w) ++ [m])%list)
    /\ (first_where (curso_matches (docente_id u) (materia_id m) periodo')
          (cursos (w_db w)) = Some c
          /\ cursos (w_db w') = cursos (w_db w)
        \/ first_where (curso_matches (docente_id u) (materia_id m) periodo')
             (cursos (w_db w)) = None
          /\ c = mkCurso (next_id (map curso_id (cursos (w_db w))))
                   (docente_id u) (materia_id m) periodo'
          /\ cursos (w_db w') = (cursos (w_db w) ++ [c])%list)
    /\ archivos (w_db w')
       = match first_where (has_nombre name) (archivos (w_db w)) with
         | Some _ =>
             update_first (has_nombre name)
               (fun a => mkArchivo (archivo_nombre a) (utcnow ev) (docente_id u)
                           (curso_id c))
               (archivos (w_db w))
         | None =>
             (archivos (w_db w)
              ++ [mkArchivo name (utcnow ev) (docente_id u) (curso_id c)])%list
         end
    /\ docentes (w_db w') = docentes (w_db w)
    /\ w_blobs w' = <[name := stream file]> (w_blobs w)
    /\ body = ((match first_where (has_nombre name) (archivos (w_db w)) with
                | Some _ => "Archivo actualizado y asignado a "
                | None => "Archivo subido y asignado a "
                end) +:+ materia_nombre m +:+ " - " +:+ periodo' +:+ ".").
Proof.
  intros Hrun nm p name. subst nm p name. run_upload_in Hrun.
  repeat (case_match; simpl in *; simplify_eq).
  all: eexists _, _.
  all: split; [first [ left; split; reflexivity
                     | right; split; [reflexivity | split; reflexivity] ]|].
  all: split; [first [ left; split; [eassumption | reflexivity]
                     | right; split; [eassumption | split; reflexivity] ]|].
  all: by repeat split.
Qed.

(** A well-formed form is accepted when no store call fails. *)
Lemma upload_succeeds sf ev u file materia periodo w :
  filename file <> "" -> Py.truthy materia = true -> Py.truthy periodo = true ->
  (forall st, fault ev st = None) ->
  exists body w' tr,
    run_request (upload sf ev u (mkUpload (Some file) materia periodo)) w
    = (Returned (Text body 200), w', tr).
Proof.
  intros Hname Hm Hp Hquiet.
  destruct (run_request _ w) as [[out w'] tr] eqn:Hrun.
  apply String.eqb_neq in Hname. run_upload_in Hrun.
  rewrite Hname, Hm, Hp in Hrun. simpl in Hrun.
  rewrite !Hquiet in Hrun.
  repeat (case_match; simpl in *; simplify_eq); eauto.
Qed.

(** After a successful upload the subject and the course it was filed
    under are the ones the same look-ups find again. *)
Lemma upload_success_resolved sf ev u file materia periodo w body w' tr :
  run_request (upload sf ev u (mkUpload (Some file) materia periodo)) w
    = (Returned (Text body 200), w', tr) ->
  exists m c,
    first_where (materia_named (Py.strip (default "" materia))) (materias (w_db w'))
      = Some m
    /\ first_where (curso_matches (docente_id u) (materia_id m)
                      (Py.strip (default "" periodo))) (cursos (w_db w')) = Some c
    /\ In (mkArchivo (sf (filename file)) (utcnow ev) (docente_id u) (curso_id c))
          (archivos (w_db w')).
Proof.
  intros Hrun. apply upload_success in Hrun as (m & c & Hm & Hc & Ha & _).
  exists m, c. split; [|split].
  - destruct Hm as [[Hm ->]|(Hm & -> & ->)]; [done|].
    apply first_where_app_absent; [done | apply materia_named_new].
  - destruct Hc as [[Hc ->]|(Hc & -> & ->)]; [done|].
    apply first_where_app_absent; [done | apply curso_matches_new].
  - rewrite Ha. clear Ha.
    destruct (first_where _ (archivos (w_db w))) as [a|] eqn:Hfound.
    + unfold first_where in Hfound.
      induction (archivos (w_db w)) as [|r rows IH]; simpl in *; [done|].
      destruct (has_nombre (sf (filename file)) r) eqn:Hr.
      * left. apply String.eqb_eq in Hr. by rewrite Hr.
      * right. by apply IH.
    + apply in_or_app. right. by left.
Qed.

(** *** Re-uploading a known file name *)

Lemma update_first_length {A} (p : A -> bool) f rows :
  length (update_first p f rows) = length rows.
Proof.
  induction rows as [|r rows IH]; simpl; [done|].
  destruct (p r); simpl; by rewrite ?IH.
Qed.

Lemma update_first_nombres p f rows :
  (forall a, archivo_nombre (f a) = archivo_nombre a) ->
  map archivo_nombre (update_first p f rows) = map archivo_nombre rows.
Proof.
  intros Hf. induction rows as [|r rows IH]; simpl; [done|].
  destruct (p r); simpl; by rewrite ?Hf, ?IH.
Qed.

Lemma count_nombre_map nombre rows :
  count_nombre nombre rows
  = length (List.filter (fun n => String.eqb n nombre) (map archivo_nombre rows)).
Proof.
  unfold count_nombre. induction rows as [|r rows IH]; simpl; [done|].
  unfold has_nombre at 1. destruct (String.eqb _ _); simpl; by rewrite IH.
Qed.

Lemma count_nombre_nombres nombre rows rows' :
  map archivo_nombre rows = map archivo_nombre rows' ->
  count_nombre nombre rows = count_nombre nombre rows'.
Proof. intros Heq. by rewrite !count_nombre_map, Heq. Qed.

Lemma first_where_update_first {A} (p : A -> bool) f rows a :
  first_where p rows = Some a -> p (f a) = true ->
  first_where p (update_first p f rows) = Some (f a).
Proof.
  unfold first_where. intros Hfound Hpf.
  induction rows as [|r rows IH]; simpl in *; [done|].
  destruct (p r) eqn:Hr; simpl.
  - injection Hfound as ->. by rewrite Hpf.
  - rewrite Hr. by apply IH.
Qed.

(** The row [first_where] finds splits the table: no row before it
    satisfies [p], and [update_first] changes that row alone. *)
Lemma update_first_split {A} (p : A -> bool) f rows a :
  first_where p rows = Some a ->
  exists before after,
    rows = (before ++ a :: after)%list
    /\ Forall (fun r => p r = false) before
    /\ update_first p f rows = (before ++ f a :: after)%list.
Proof.
  unfold first_where. induction rows as [|r rows IH]; simpl; [done|].
  destruct (p r) eqn:Hr; intros Hfound.
  - injection Hfound as ->. by exists [], rows.
  - destruct (IH Hfound) as (before & after & -> & Hbefore & ->).
    exists (r :: before), after. split; [done|]. split; [by constructor | done].
Qed.

Lemma count_nombre_absent nombre rows :
  nombre ∉ map archivo_nombre rows -> count_nombre nombre rows = 0%nat.
Proof.
  unfold count_nombre. induction rows as [|r rows IH]; simpl; [done|].
  intros Hfresh. apply not_elem_of_cons in Hfresh as [Hne Hfresh].
  unfold has_nombre at 1. apply not_eq_sym, String.eqb_neq in Hne.
  rewrite Hne. by apply IH.
Qed.

Lemma count_nombre_unique nombre rows a :
  NoDup (map archivo_nombre rows) ->
  first_where (has_nombre nombre) rows = Some a ->
  count_nombre nombre rows = 1%nat.
Proof.
  unfold first_where. induction rows as [|r rows IH]; simpl; [done|].
  intros Hnd Hfound. apply NoDup_cons in Hnd as [Hfresh Hnd].
  unfold count_nombre. simpl.
  destruct (has_nombre nombre r) eqn:Hr; simpl.
  - f_equal. apply String.eqb_eq in Hr. subst nombre.
    by apply count_nombre_absent.
  - by apply IH.
Qed.

(** C8: a successful upload under a file name that already has a row
    rewrites that row in place (new timestamp, the uploader as owner,
    the course resolved for this upload) and adds none: the table keeps
    its length, and the rows of that name their number, which is one
    where file names are unique. *)
Theorem upload_existing_record sf ev u file materia periodo w body w' tr a :
  let name := sf (filename file) in
  run_request (upload sf ev u (mkUpload (Some file) materia periodo)) w
    = (Returned (Text body 200), w', tr) ->
  first_where (has_nombre name) (archivos (w_db w)) = Some a ->
  exists m c,
    first_where (materia_named (Py.strip (default "" materia))) (materias (w_db w'))
      = Some m
    /\ first_where (curso_matches (docente_id u) (materia_id m)
                      (Py.strip (default "" periodo))) (cursos (w_db w')) = Some c
    /\ archivos (w_db w')
       = update_first (has_nombre name)
           (fun a => mkArchivo (archivo_nombre a) (utcnow ev) (docente_id u) (curso_id c))
           (archivos (w_db w))
    /\ first_where (has_nombre name) (archivos (w_db w'))
       = Some (mkArchivo name (utcnow ev) (docente_id u) (curso_id c))
    /\ length (archivos (w_db w')) = length (archivos (w_db w))
    /\ count_nombre name (archivos (w_db w')) = count_nombre name (archivos (w_db w))
    /\ (NoDup (map archivo_nombre (archivos (w_db w))) ->
        count_nombre name (archivos (w_db w')) = 1%nat).
Proof.
  intros name Hrun Hfound.
  destruct (upload_success_resolved _ _ _ _ _ _ _ _ _ _ Hrun) as (m & c & Hm & Hc & _).
  apply upload_success in Hrun as (m' & c' & Hm' & Hc' & Ha & _).
  fold name in Ha. rewrite Hfound in Ha.
  assert (m' = m) as ->.
  { destruct Hm' as [[Hm' Heq]|(Hm' & -> & Heq)]; rewrite Heq in Hm.
    - congruence.
    - rewrite (first_where_app_absent _ _ _ Hm' (materia_named_new _ _)) in Hm.
      congruence. }
  assert (c' = c) as ->.
  { destruct Hc' as [[Hc' Heq]|(Hc' & -> & Heq)]; rewrite Heq in Hc.
    - congruence.
    - rewrite (first_where_app_absent _ _ _ Hc' (curso_matches_new _ _ _ _)) in Hc.
      congruence. }
  exists m, c. split; [done|]. split; [done|]. split; [done|].
  assert (map archivo_nombre (archivos (w_db w')) = map archivo_nombre (archivos (w_db w)))
    as Hnames by (rewrite Ha; by apply update_first_nombres).
  split; [|split; [|split]].
  - rewrite Ha.
    rewrite (first_where_update_first _ _ _ a Hfound); simpl.
    + apply first_where_holds in Hfound as [Hfound _].
      apply String.eqb_eq in Hfound. by rewrite Hfound.
    + by apply first_where_holds in Hfound as [Hfound _].
  - rewrite Ha. apply update_first_length.
  - by apply count_nombre_nombres.
  - intros Hnd. rewrite (count_nombre_nombres _ _ _ Hnames).
    by apply (count_nombre_unique _ _ a).
Qed.

(** *** One course per teacher, subject and period *)

Lemma first_where_materia_absent nombre ms :
  first_where (materia_named nombre) ms = None -> nombre ∉ map materia_nombre ms.
Proof.
  intros Hnone Hin. apply first_where_None_iff in Hnone.
  apply list_elem_of_fmap in Hin as (m & -> & Hm).
  rewrite Forall_forall in Hnone. specialize (Hnone m Hm).
  unfold materia_named in Hnone. by rewrite String.eqb_refl in Hnone.
Qed.

Lemma first_where_curso_absent docente materia periodo cs :
  first_where (curso_matches docente materia periodo) cs = None ->
  (docente, materia, periodo) ∉ map curso_key cs.
Proof.
  intros Hnone Hin. apply first_where_None_iff in Hnone.
  apply list_elem_of_fmap in Hin as (c & Hkey & Hc).
  rewrite Forall_forall in Hnone. specialize (Hnone c Hc).
  unfold curso_key in Hkey. injection Hkey as -> -> ->.
  unfold curso_matches in Hnone.
  by rewrite !Z.eqb_refl, String.eqb_refl in Hnone.
Qed.

Lemma NoDup_snoc {A} (l : list A) x : NoDup l -> x ∉ l -> NoDup (l ++ [x]).
Proof.
  intros Hl Hx. apply NoDup_app. split; [done|]. split.
  - intros y Hy Hyx. apply list_elem_of_singleton in Hyx. by subst.
  - apply NoDup_singleton.
Qed.

(** A successful upload keeps subject names and course triples unique. *)
Lemma upload_keeps_unique sf ev u file materia periodo w body w' tr :
  run_request (upload sf ev u (mkUpload (Some file) materia periodo)) w
    = (Returned (Text body 200), w', tr) ->
  db_unique (w_db w) -> db_unique (w_db w').
Proof.
  intros Hrun [Hms Hcs].
  apply upload_success in Hrun as (m & c & Hm & Hc & _). split.
  - destruct Hm as [[_ ->]|(Hm & -> & ->)]; [done|].
    rewrite map_app. simpl. apply NoDup_snoc; [done|].
    by apply first_where_materia_absent.
  - destruct Hc as [[_ ->]|(Hc & -> & ->)]; [done|].
    rewrite map_app. simpl. apply NoDup_snoc; [done|].
    by apply first_where_curso_absent.
Qed.

Lemma filter_key_at_most_one {A K} (key : A -> K) (q : A -> bool) (k : K) rows :
  NoDup (map key rows) ->
  (forall r, In r rows -> q r = true -> key r = k) ->
  (length (List.filter q rows) <= 1)%nat.
Proof.
  induction rows as [|r rows IH]; simpl; [lia|].
  intros Hnd Hkey. apply NoDup_cons in Hnd as [Hfresh Hnd].
  assert (length (List.filter q rows) <= 1)%nat as Hrest
    by (apply IH; [done | intros; apply Hkey; tauto]).
  destruct (q r) eqn:Hr; simpl; [|done].
  destruct (List.filter q rows) as [|r' rest] eqn:Hfilter; simpl; [lia|].
  exfalso. apply Hfresh.
  assert (In r' (List.filter q rows)) as Hin by (rewrite Hfilter; by left).
  apply filter_In in Hin as [Hin Hq].
  rewrite (Hkey r) by tauto. rewrite <- (Hkey r') by tauto.
  apply list_elem_of_fmap_2. by apply list_elem_of_In.
Qed.

Lemma unique_nombre_same_row ms m1 m2 :
  NoDup (map materia_nombre ms) -> In m1 ms -> In m2 ms ->
  materia_nombre m1 = materia_nombre m2 -> m1 = m2.
Proof.
  induction ms as [|m ms IH]; simpl; [done|].
  intros Hnd [->|H1] [->|H2] Heq; apply NoDup_cons in Hnd as [Hfresh Hnd].
  - done.
  - exfalso. apply Hfresh. rewrite Heq.
    apply list_elem_of_fmap_2. by apply list_elem_of_In.
  - exfalso. apply Hfresh. rewrite <- Heq.
    apply list_elem_of_fmap_2. by apply list_elem_of_In.
  - by apply IH.
Qed.

(** Under the uniqueness constraints a triple has at most one course;
    it has exactly one once its subject and course are found. *)
Lemma course_count_resolved docente nombre periodo d m c :
  db_unique d ->
  first_where (materia_named nombre) (materias d) = Some m ->
  first_where (curso_matches docente (materia_id m) periodo) (cursos d) = Some c ->
  course_count docente nombre periodo d = 1%nat.
Proof.
  intros [Hms Hcs] Hm Hc. unfold course_count.
  apply first_where_holds in Hm as [Hm_named Hm_in].
  apply first_where_holds in Hc as [Hc_matches Hc_in].
  apply Nat.le_antisymm.
  - apply (filter_key_at_most_one curso_key _ (docente, materia_id m, periodo));
      [done|].
    intros c' _ Hc'. unfold course_of in Hc'.
    apply andb_prop in Hc' as [Hc' Hsubj]. apply andb_prop in Hc' as [Hdoc Hper].
    apply existsb_exists in Hsubj as (m' & Hm'_in & Hm').
    apply andb_prop in Hm' as [Hid Hm'_named].
    assert (m' = m) as ->.
    { apply (unique_nombre_same_row (materias d)); try done.
      apply String.eqb_eq in Hm'_named, Hm_named. congruence. }
    unfold curso_key. apply Z.eqb_eq in Hdoc, Hid. apply String.eqb_eq in Hper.
    congruence.
  - assert (In c (List.filter (course_of docente nombre periodo (materias d)) (cursos d)))
      as Hin.
    { apply filter_In. split; [done|]. unfold course_of, curso_matches in *.
      apply andb_prop in Hc_matches as [Hc_matches Hper].
      apply andb_prop in Hc_matches as [Hdoc Hmat].
      rewrite Hdoc, Hper. simpl. apply existsb_exists. exists m.
      split; [done|]. rewrite Hm_named, andb_true_r.
      apply Z.eqb_eq in Hmat. apply Z.eqb_eq. congruence. }
    destruct (List.filter _ _); [done | simpl; lia].
Qed.

Lemma first_where_app_found {A} (p : A -> bool) rows more r :
  first_where p rows = Some r -> first_where p (rows ++ more) = Some r.
Proof.
  unfold first_where. induction rows as [|r' rows IH]; simpl; [done|].
  destruct (p r'); [done | exact IH].
Qed.

(** An upload either succeeds or leaves the tables as they were. *)
Lemma upload_db_cases sf ev u form w :
  w_db (run_request (upload sf ev u form) w).1.2 = w_db w
  \/ exists file body tr,
       form = mkUpload (Some file) (form_materia form) (form_periodo form)
       /\ run_request (upload sf ev u form) w
          = (Returned (Text body 200), (run_request (upload sf ev u form) w).1.2, tr).
Proof.
  destruct form as [file materia periodo].
  destruct (run_request _ w) as [[out w'] tr] eqn:Hrun. run_upload_in Hrun.
  repeat (case_match; simpl in *; simplify_eq); try (by left); right; eauto.
Qed.

(** What an exchange does to the subjects and the courses: no row is
    changed or removed, rows are only added at the end, and the
    uniqueness constraints are kept. *)
Lemma serve_tables sf w c :
  (exists ms, materias (w_db (serve sf w c)) = (materias (w_db w) ++ ms)%list)
  /\ (exists cs, cursos (w_db (serve sf w c)) = (cursos (w_db w) ++ cs)%list)
  /\ (db_unique (w_db w) -> db_unique (w_db (serve sf w c))).
Proof.
  assert (forall w', w_db w' = w_db w ->
            (exists ms, materias (w_db w') = (materias (w_db w) ++ ms)%list)
            /\ (exists cs, cursos (w_db w') = (cursos (w_db w) ++ cs)%list)
            /\ (db_unique (w_db w) -> db_unique (w_db w'))) as Hsame.
  { intros w' ->. split; [|split; [|done]]; exists []; by rewrite app_nil_r. }
  assert (forall w', materias (w_db w') = materias (w_db w) ->
            cursos (w_db w') = cursos (w_db w) ->
            (exists ms, materias (w_db w') = (materias (w_db w) ++ ms)%list)
            /\ (exists cs, cursos (w_db w') = (cursos (w_db w) ++ cs)%list)
            /\ (db_unique (w_db w) -> db_unique (w_db w'))) as Hkept.
  { intros w' Hms Hcs. unfold db_unique. rewrite Hms, Hcs.
    split; [|split; [|done]]; exists []; by rewrite app_nil_r. }
  unfold serve, dispatch, login_required.
  destruct c as [ev [u|] [form|search|name|name|name|data]]; simpl;
    try (apply Hsame; by destruct w);
    try (apply Hsame;
         unfold list_files, view_file, download_file, send_from_directory, run_request;
         simpl; by repeat (case_match; simpl in *; simplify_eq)).
  - destruct (upload_db_cases sf ev u form w) as [Hdb|(file & body & tr & -> & Hrun)];
      [by apply Hsame|].
    simpl in Hrun. pose proof (upload_keeps_unique _ _ _ _ _ _ _ _ _ _ Hrun) as Hu.
    apply upload_success in Hrun as (m & c & Hm & Hc & _).
    split; [|split; [|done]].
    + destruct Hm as [[_ ->]|(_ & _ & ->)]; [exists [] | by eexists].
      by rewrite app_nil_r.
    + destruct Hc as [[_ ->]|(_ & _ & ->)]; [exists [] | by eexists].
      by rewrite app_nil_r.
  - apply Hkept; unfold delete_file; run_view;
      repeat (case_match; simpl in *; simplify_eq); done.
  - apply Hkept; unfold rename_file; run_view;
      repeat (case_match; simpl in *; simplify_eq); done.
Qed.

Lemma serve_all_tables sf cs w :
  (exists ms, materias (w_db (serve_all sf w cs)) = (materias (w_db w) ++ ms)%list)
  /\ (exists cs', cursos (w_db (serve_all sf w cs)) = (cursos (w_db w) ++ cs')%list)
  /\ (db_unique (w_db w) -> db_unique (w_db (serve_all sf w cs))).
Proof.
  revert w. induction cs as [|c cs IH]; intros w; simpl.
  - split; [|split; [|done]]; exists []; by rewrite app_nil_r.
  - destruct (serve_tables sf w c) as ([ms Hms] & [cs1 Hcs] & Hu).
    destruct (IH (serve sf w c)) as ([ms' Hms'] & [cs' Hcs'] & Hu').
    unfold serve_all in *. split; [|split].
    + exists (ms ++ ms')%list. by rewrite Hms', Hms, app_assoc.
    + exists (cs1 ++ cs')%list. by rewrite Hcs', Hcs, app_assoc.
    + tauto.
Qed.

(** C7: when two uploads by one teacher under the same subject name
    and the same trimmed period both succeed, whatever exchanges were
    served in between, the second one finds the subject and the course
    of the first and adds neither, and under the uniqueness constraints
    of the tables exactly one [Curso] row stands for the triple
    afterwards. *)
Theorem upload_twice_one_course sf ev1 ev2 u file1 file2 materia1 materia2
    periodo1 periodo2 between w body1 w1 tr1 body2 w2 tr2 :
  Py.strip (default "" materia1) = Py.strip (default "" materia2) ->
  Py.strip (default "" periodo1) = Py.strip (default "" periodo2) ->
  run_request (upload sf ev1 u (mkUpload (Some file1) materia1 periodo1)) w
    = (Returned (Text body1 200), w1, tr1) ->
  run_request (upload sf ev2 u (mkUpload (Some file2) materia2 periodo2))
    (serve_all sf w1 between)
    = (Returned (Text body2 200), w2, tr2) ->
  materias (w_db w2) = materias (w_db (serve_all sf w1 between))
  /\ cursos (w_db w2) = cursos (w_db (serve_all sf w1 between))
  /\ (db_unique (w_db w) ->
      course_count (docente_id u) (Py.strip (default "" materia1))
        (Py.strip (default "" periodo1)) (w_db w2) = 1%nat).
Proof.
  intros Hsubject Hperiod Hrun1 Hrun2.
  pose proof (upload_keeps_unique _ _ _ _ _ _ _ _ _ _ Hrun1) as Hunique1.
  apply upload_success_resolved in Hrun1 as (m & c & Hm & Hc & _).
  destruct (serve_all_tables sf between w1) as ([ms Hms] & [cs Hcs] & Hunique).
  set (w1' := serve_all sf w1 between) in *.
  apply (first_where_app_found _ _ ms) in Hm. rewrite <- Hms in Hm.
  apply (first_where_app_found _ _ cs) in Hc. rewrite <- Hcs in Hc.
  pose proof (upload_keeps_unique _ _ _ _ _ _ _ _ _ _ Hrun2) as Hunique2.
  apply upload_success in Hrun2 as (m' & c' & Hm' & Hc' & _).
  rewrite <- Hsubject in Hm'. rewrite <- Hperiod in Hc'.
  assert (materias (w_db w2) = materias (w_db w1') /\ m' = m) as [Hms2 ->].
  { destruct Hm' as [[Hm' Heq]|(Hm' & _)]; [split; [done|] | ]; congruence. }
  assert (cursos (w_db w2) = cursos (w_db w1')) as Hcs2.
  { destruct Hc' as [[_ Heq]|(Hc' & _)]; congruence. }
  split; [done|]. split; [done|]. intros Hw.
  apply (course_count_resolved _ _ _ _ m c); [tauto | |].
  - by rewrite Hms2.
  - by rewrite Hcs2.
Qed.

(** ** Listing *)

(** *** Timestamps are totally pre-ordered *)

Lemma lex_leb_total a b : lex_leb a b = false -> lex_leb b a = true.
Proof.
  revert b. induction a as [|x a IH]; intros [|y b]; simpl; try done.
  intros H. apply orb_false_iff in H as [Hlt H].
  apply Nat.ltb_ge in Hlt. destruct (Nat.eqb_spec x y) as [->|Hne]; simpl in H.
  - rewrite Nat.eqb_refl, (IH _ H). simpl. apply orb_true_r.
  - assert ((y <? x)%nat = true) as -> by (apply Nat.ltb_lt; lia). done.
Qed.

Lemma lex_leb_trans a b c :
  lex_leb a b = true -> lex_leb b c = true -> lex_leb a c = true.
Proof.
  revert b c. induction a as [|x a IH]; intros [|y b] [|z c]; simpl; try done.
  intros Hab Hbc.
  apply orb_true_iff in Hab as [Hxy|Hab]; apply orb_true_iff in Hbc as [Hyz|Hbc].
  - apply Nat.ltb_lt in Hxy, Hyz.
    assert ((x <? z)%nat = true) as -> by (apply Nat.ltb_lt; lia). done.
  - apply andb_prop in Hbc as [Hyz _]. apply Nat.eqb_eq in Hyz. subst z.
    by rewrite Hxy.
  - apply andb_prop in Hab as [Hxy _]. apply Nat.eqb_eq in Hxy. subst y.
    by rewrite Hyz.
  - apply andb_prop in Hab as [Hxy Hab]. apply andb_prop in Hbc as [Hyz Hbc].
    apply Nat.eqb_eq in Hxy, Hyz. subst y z.
    rewrite Nat.eqb_refl, (IH _ _ Hab Hbc). simpl. apply orb_true_r.
Qed.

Lemma insert_desc_perm r rows : Permutation (insert_desc r rows) (r :: rows).
Proof.
  induction rows as [|r' rows IH]; simpl; [done|].
  destruct (dt_leb _ _); [done|].
  rewrite IH. apply perm_swap.
Qed.

Lemma order_by_fecha_desc_perm rows : Permutation (order_by_fecha_desc rows) rows.
Proof.
  induction rows as [|r rows IH]; simpl; [done|].
  rewrite insert_desc_perm. by constructor.
Qed.

Lemma insert_desc_sorted r rows :
  StronglySorted newer_first rows -> StronglySorted newer_first (insert_desc r rows).
Proof.
  induction 1 as [|r' rows Hsorted IH Hall]; simpl.
  - repeat constructor.
  - destruct (dt_leb (row_fecha_subida r') (row_fecha_subida r)) eqn:Hle.
    + constructor; [by constructor|]. constructor; [done|].
      eapply Forall_impl; [exact Hall|]. intros x Hx. unfold newer_first in *.
      by apply (lex_leb_trans _ (dt_fields (row_fecha_subida r'))).
    + constructor; [done|].
      rewrite insert_desc_perm.
      constructor; [|done]. by apply lex_leb_total.
Qed.

Lemma order_by_fecha_desc_sorted rows :
  StronglySorted newer_first (order_by_fecha_desc rows).
Proof.
  induction rows as [|r rows IH]; simpl; [constructor|].
  by apply insert_desc_sorted.
Qed.

Lemma filter_sorted {A} (R : A -> A -> Prop) (p : A -> bool) rows :
  StronglySorted R rows -> StronglySorted R (List.filter p rows).
Proof.
  induction 1 as [|r rows Hsorted IH Hall]; simpl; [constructor|].
  destruct (p r); [|done]. constructor; [done|].
  apply Forall_forall. intros x Hx. apply list_elem_of_In, filter_In in Hx as [Hx _].
  rewrite Forall_forall in Hall. by apply Hall, list_elem_of_In.
Qed.

Lemma filter_perm {A} (p : A -> bool) rows rows' :
  Permutation rows rows' -> Permutation (List.filter p rows) (List.filter p rows').
Proof.
  induction 1 as [|r rows rows' _ IH|r1 r2 rows|rows1 rows2 rows3 _ IH1 _ IH2]; simpl.
  - done.
  - destruct (p r); [by constructor | done].
  - destruct (p r1), (p r2); try done. apply perm_swap.
  - by etransitivity.
Qed.

Lemma filter_filter {A} (p q : A -> bool) rows :
  List.filter p (List.filter q rows) = List.filter (fun r => q r && p r) rows.
Proof.
  induction rows as [|r rows IH]; simpl; [done|].
  destruct (q r); simpl; [destruct (p r)|]; by rewrite IH.
Qed.

(** *** [LIKE] against a pattern without wildcards *)

Lemma lower_char_idem c : Py.lower_char (Py.lower_char c) = Py.lower_char c.
Proof. by destruct c as [[] [] [] [] [] [] [] []]. Qed.

Lemma lower_char_wildcard c : wildcard (Py.lower_char c) = wildcard c.
Proof. by destruct c as [[] [] [] [] [] [] [] []]. Qed.

Lemma lower_idem s : Py.lower (Py.lower s) = Py.lower s.
Proof. induction s as [|c s IH]; simpl; [done|]. by rewrite lower_char_idem, IH. Qed.

Lemma lower_app s t : Py.lower (s +:+ t) = Py.lower s +:+ Py.lower t.
Proof. induction s as [|c s IH]; simpl; [done|]. by rewrite IH. Qed.

Lemma no_wildcard_lower s : no_wildcard (Py.lower s) = no_wildcard s.
Proof.
  induction s as [|c s IH]; simpl; [done|]. by rewrite lower_char_wildcard, IH.
Qed.

Lemma like_percent s : like "%" s = true.
Proof. induction s as [|c s IH]; simpl in *; [done|]. by rewrite IH. Qed.

Lemma like_literal_prefix p s :
  no_wildcard p = true -> Py.lower p = p -> Py.lower s = s ->
  like (p +:+ "%") s = Py.startswith p s.
Proof.
  revert s. induction p as [|a p IH]; intros s Hp Hlp Hls.
  - apply like_percent.
  - simpl in Hp. apply andb_prop in Hp as [Ha Hp].
    apply negb_true_iff, orb_false_iff in Ha as [Hpct Hund].
    simpl in Hlp. injection Hlp as Hla Hlp.
    change (like (String a p +:+ "%") s) with (like (String a (p +:+ "%")) s).
    simpl. rewrite Hpct.
    destruct s as [|c s]; [done|].
    simpl in Hls. injection Hls as Hlc Hls.
    rewrite Hund, Hla, Hlc. simpl. by rewrite IH.
Qed.

Lemma like_contains p s :
  no_wildcard p = true -> Py.lower p = p -> Py.lower s = s ->
  like ("%" +:+ p +:+ "%") s = Py.contains p s.
Proof.
  intros Hp Hlp. induction s as [|c s IH]; intros Hls.
  - change (like ("%" +:+ p +:+ "%") "") with (like (p +:+ "%") "" || false).
    by rewrite like_literal_prefix.
  - simpl in Hls. injection Hls as Hlc Hls.
    change (like ("%" +:+ p +:+ "%") (String c s))
      with (like (p +:+ "%") (String c s) || like ("%" +:+ p +:+ "%") s).
    rewrite IH by done. rewrite like_literal_prefix; [done..|].
    simpl. by rewrite Hlc, Hls.
Qed.

Lemma ilike_contains column search :
  no_wildcard search = true ->
  ilike column ("%" +:+ Py.lower search +:+ "%")
  = Py.contains (Py.lower search) (Py.lower column).
Proof.
  intros Hq. unfold ilike.
  assert (Py.lower ("%" +:+ Py.lower search +:+ "%") = "%" +:+ Py.lower search +:+ "%")
    as -> by (rewrite !lower_app, lower_idem; reflexivity).
  apply like_contains; [by rewrite no_wildcard_lower | apply lower_idem..].
Qed.

(** Without wildcards in the search string the [WHERE] clause keeps
    the rows one of whose three columns contains it, letter case
    aside. *)
Lemma search_filter_contains search r :
  no_wildcard search = true ->
  search_filter (Py.lower search) r
  = Py.contains (Py.lower search) (Py.lower (row_nombre r))
    || Py.contains (Py.lower search) (Py.lower (row_materia_nombre r))
    || Py.contains (Py.lower search) (Py.lower (row_periodo r)).
Proof. intros Hq. unfold search_filter. by rewrite !ilike_contains. Qed.

(** [Py.contains] is the substring test. *)
Lemma contains_spec p s :
  Py.contains p s = true <-> exists before after, s = before +:+ p +:+ after.
Proof.
  assert (forall p s, Py.startswith p s = true <-> exists after, s = p +:+ after)
    as Hprefix.
  { clear. induction p as [|a p IH]; intros s; simpl.
    - split; [by exists s | done].
    - destruct s as [|c s]; [split; [done | by intros [? ?]]|].
      rewrite andb_true_iff, IH. split.
      + intros [Hac [after ->]]. apply Ascii.eqb_eq in Hac as ->. by exists after.
      + intros [after Heq]. injection Heq as -> ->.
        split; [apply Ascii.eqb_refl | by exists after]. }
  induction s as [|c s IH]; simpl.
  - rewrite orb_false_r, Hprefix. split.
    + intros [after Heq]. by exists "", after.
    + intros ([|b before] & after & Heq); [by exists after | done].
  - rewrite orb_true_iff, Hprefix, IH. split.
    + intros [[after Heq]|(before & after & ->)].
      * by exists "", after.
      * by exists (String c before), after.
    + intros ([|b before] & after & Heq).
      * left. by exists after.
      * right. injection Heq as -> ->. by exists before, after.
Qed.

(** The rows of the join: one for each [Archivo] row together with a
    teacher, a course and that course's subject of the keys it names. *)
Lemma joined_spec d r :
  In r (joined d) <->
  exists a t c m,
    In a (archivos d) /\ In t (docentes d) /\ In c (cursos d) /\ In m (materias d)
    /\ docente_id t = archivo_docente_id a
    /\ curso_id c = archivo_curso_id a
    /\ materia_id m = curso_materia_id c
    /\ r = mkRow (archivo_nombre a) (archivo_fecha_subida a) (docente_nombre t)
             (materia_nombre m) (curso_periodo c).
Proof.
  unfold joined. rewrite <- list_elem_of_In. rewrite list_elem_of_bind. split.
  - intros (a & Hr & Ha).
    apply list_elem_of_bind in Hr as (t & Hr & Ht).
    apply list_elem_of_bind in Hr as (c & Hr & Hc).
    apply list_elem_of_bind in Hr as (m & Hr & Hm).
    apply list_elem_of_singleton in Hr.
    apply list_elem_of_In, filter_In in Ht as [Ht Htid].
    apply list_elem_of_In, filter_In in Hc as [Hc Hcid].
    apply list_elem_of_In, filter_In in Hm as [Hm Hmid].
    apply Z.eqb_eq in Htid, Hcid, Hmid. apply list_elem_of_In in Ha.
    by exists a, t, c, m.
  - intros (a & t & c & m & Ha & Ht & Hc & Hm & Htid & Hcid & Hmid & ->).
    exists a. split; [|by apply list_elem_of_In].
    apply list_elem_of_bind. exists t.
    split; [|apply list_elem_of_In, filter_In; split; [done | by apply Z.eqb_eq]].
    apply list_elem_of_bind. exists c.
    split; [|apply list_elem_of_In, filter_In; split; [done | by apply Z.eqb_eq]].
    apply list_elem_of_bind. exists m.
    split; [|apply list_elem_of_In, filter_In; split; [done | by apply Z.eqb_eq]].
    by apply list_elem_of_singleton.
Qed.

(** On ASCII text the two ways of lowering agree. *)
Lemma str_lower_ascii s : Py.isascii s = true -> Py.str_lower s = Py.lower s.
Proof.
  induction s as [|c s IH]; [done|]. intros Hascii.
  cbn [Py.isascii] in Hascii. apply andb_prop in Hascii as [Hc Hs].
  cbn [Py.str_lower Py.lower].
  destruct (nat_of_ascii c =? 195)%nat eqn:Hlead.
  - apply Nat.eqb_eq in Hlead. by rewrite Hlead in Hc.
  - by rewrite IH.
Qed.

(** For an ASCII search string free of the [LIKE] wildcards the
    listing holds, newest first, exactly the joined rows whose file is
    on disk and one of whose file name, subject name or period contains
    the search string, the case of ASCII letters aside (every row when
    it is empty). *)
Lemma list_files_result ev u search w :
  Py.isascii (default "" search) = true ->
  no_wildcard (default "" search) = true ->
  let q := Py.lower (default "" search) in
  let keep r :=
    (Py.contains q (Py.lower (row_nombre r))
     || Py.contains q (Py.lower (row_materia_nombre r))
     || Py.contains q (Py.lower (row_periodo r)))
    && bool_decide (is_Some (w_blobs w !! row_nombre r)) in
  exists rows,
    run_request (list_files ev u search) w = (Returned (Json (map entry_of rows)), w, [])
    /\ Permutation rows (List.filter keep (joined (w_db w)))
    /\ StronglySorted newer_first rows.
Proof.
  intros Hascii Hq q keep.
  exists (listed_rows q (mkSession (w_db w) (w_db w) (w_blobs w) [])).
  split; [unfold list_files; rewrite (str_lower_ascii _ Hascii); by destruct w|].
  unfold listed_rows, list_query. simpl. split.
  - etransitivity; [apply filter_perm, order_by_fecha_desc_perm|].
    assert (forall r, search_filter q r
                      = Py.contains q (Py.lower (row_nombre r))
                        || Py.contains q (Py.lower (row_materia_nombre r))
                        || Py.contains q (Py.lower (row_periodo r))) as Hfilter
      by (intros r; by apply search_filter_contains).
    subst keep. simpl. destruct q as [|c q'] eqn:Hquery.
    + erewrite filter_ext; [done|]. intros r.
      cbv beta. by destruct (Py.lower (row_nombre r)).
    + rewrite filter_filter. erewrite filter_ext; [done|].
      intros r. simpl. by rewrite Hfilter.
  - apply filter_sorted, order_by_fecha_desc_sorted.
Qed.

(** C9 fails on two kinds of search string.  A capital outside ASCII:
    line 140 lowers the whole search string, the database lowers only
    the ASCII letters of the column, so the file filed under Álgebra,
    which the empty search lists and the search for lgebra finds, is
    missed by the search for Álg, a substring of its subject as
    written.  A [LIKE] wildcard: the search string goes into the pattern
    unescaped, so the search for t_rea lists [tarea.pdf], none of whose
    file name, subject and period contains it. *)
Theorem list_files_misses_accented :
  let guia := mkEntry "guia.pdf" "01/03/2024 10:30" "Ana" "Álgebra" "2024-1"
                "Álgebra (2024-1)" in
  let tarea := mkEntry "tarea.pdf" "01/03/2024 10:30" "Ana" "Algebra" "2024-1"
                 "Algebra (2024-1)" in
  run_request (list_files quiet ana (Some "Álg")) w_guia = (Returned (Json []), w_guia, [])
  /\ Py.contains "Álg" "Álgebra" = true
  /\ Py.contains (Py.str_lower "Álg") (Py.str_lower "Álgebra") = true
  /\ run_request (list_files quiet ana None) w_guia = (Returned (Json [guia]), w_guia, [])
  /\ run_request (list_files quiet ana (Some "lgebra")) w_guia
     = (Returned (Json [guia]), w_guia, [])
  /\ run_request (list_files quiet ana (Some "t_rea")) w_tarea
     = (Returned (Json [tarea]), w_tarea, [])
  /\ Py.contains (Py.str_lower "t_rea") (Py.str_lower "tarea.pdf") = false
  /\ Py.contains (Py.str_lower "t_rea") (Py.str_lower "Algebra") = false
  /\ Py.contains (Py.str_lower "t_rea") (Py.str_lower "2024-1") = false.
Proof. repeat split; vm_compute; reflexivity. Qed.

(** ** Who is asking *)

(** The run of a rename whose checks pass and whose store calls
    succeed. *)
Lemma rename_file_moves sf ev u old new w content a :
  old <> "" -> new <> "" ->
  w_blobs w !! old = Some content ->
  w_blobs w !! final_new_name sf new = None ->
  first_where (has_nombre old) (archivos (w_db w)) = Some a ->
  first_where (has_nombre (final_new_name sf new)) (archivos (w_db w)) = None ->
  fault ev RenameBlob = None ->
  fault ev CommitRename = None ->
  run_request (rename_file sf ev u (Some (mkRename (Some old) (Some new)))) w
  = (Returned (Text ("Archivo renombrado a " +:+ final_new_name sf new +:+ ".") 200),
     mkWorld
       (with_archivos
          (update_first (has_nombre old)
             (fun a => mkArchivo (final_new_name sf new) (archivo_fecha_subida a)
                         (archivo_docente_id a) (archivo_curso_id a))
             (archivos (w_db w)))
          (w_db w))
       (<[final_new_name sf new := content]> (delete old (w_blobs w))),
     [EvRename old (final_new_name sf new); EvCommit]).
Proof.
  intros Ho Hn Hold Hnew Hrec Hclash Hmv Hc.
  unfold rename_file. run_view.
  destruct old as [|o old']; [done|]. destruct new as [|n new']; [done|]. simpl.
  rewrite Hold; simpl. rewrite Hnew; simpl. rewrite Hrec; simpl.
  rewrite Hclash; simpl. rewrite Hold; simpl. rewrite Hmv; simpl.
  by rewrite Hc.
Qed.

(** C10: [delete_file], [rename_file], [view_file] and [download_file]
    never look at the logged-in teacher, nor at the owner recorded in
    the row: two teachers sending the same request to the same state
    get the same response and leave the same state; a file with a row
    owned by anyone is served to, and deleted for, whoever asks; and
    whoever asks renames it, the row keeping the owner it had. *)
Theorem views_ignore_teacher sf ev (t1 t2 : Docente) name data w :
  run_request (login_required (delete_file ev) (Some t1) name) w
    = run_request (login_required (delete_file ev) (Some t2) name) w
  /\ run_request (login_required (rename_file sf ev) (Some t1) data) w
     = run_request (login_required (rename_file sf ev) (Some t2) data) w
  /\ run_request (login_required (view_file ev) (Some t1) name) w
     = run_request (login_required (view_file ev) (Some t2) name) w
  /\ run_request (login_required (download_file ev) (Some t1) name) w
     = run_request (login_required (download_file ev) (Some t2) name) w
  /\ (forall a content,
        first_where (has_nombre name) (archivos (w_db w)) = Some a ->
        w_blobs w !! name = Some content ->
        fault ev CommitDelete = None -> fault ev RemoveDelete = None ->
        run_request (login_required (view_file ev) (Some t2) name) w
          = (Returned (SendFile content false), w, [])
        /\ run_request (login_required (download_file ev) (Some t2) name) w
           = (Returned (SendFile content true), w, [])
        /\ run_request (login_required (delete_file ev) (Some t2) name) w
           = (Returned delete_full_success,
              mkWorld (with_archivos (delete_first (has_nombre name) (archivos (w_db w)))
                         (w_db w))
                (delete name (w_blobs w)),
              [EvCommit; EvRemove name]))
  /\ (forall a content new,
        name <> "" -> new <> "" ->
        first_where (has_nombre name) (archivos (w_db w)) = Some a ->
        w_blobs w !! name = Some content ->
        first_where (has_nombre (final_new_name sf new)) (archivos (w_db w)) = None ->
        w_blobs w !! final_new_name sf new = None ->
        fault ev RenameBlob = None -> fault ev CommitRename = None ->
        exists before after,
          archivos (w_db w) = (before ++ a :: after)%list
          /\ Forall (fun r => archivo_nombre r <> name) before
          /\ run_request (login_required (rename_file sf ev) (Some t2)
                            (Some (mkRename (Some name) (Some new)))) w
             = (Returned (Text ("Archivo renombrado a " +:+ final_new_name sf new +:+ ".")
                            200),
                mkWorld
                  (with_archivos
                     (before ++ mkArchivo (final_new_name sf new) (archivo_fecha_subida a)
                                  (archivo_docente_id a) (archivo_curso_id a) :: after)%list
                     (w_db w))
                  (<[final_new_name sf new := content]> (delete name (w_blobs w))),
                [EvRename name (final_new_name sf new); EvCommit])).
Proof.
  do 4 (split; [reflexivity|]). split.
  - intros a content Hrec Hblob Hcommit Hremove. split; [|split].
    + unfold login_required, view_file, send_from_directory, run_request. simpl.
      rewrite Hblob. by destruct w.
    + unfold login_required, download_file, send_from_directory, run_request. simpl.
      rewrite Hblob. by destruct w.
    + unfold login_required. rewrite delete_file_run by done.
      by rewrite Hblob, Hrec.
  - intros a content new Hname Hnew Hrec Hblob Hclash Hfree Hmove Hcommit.
    destruct (update_first_split (has_nombre name)
                (fun a => mkArchivo (final_new_name sf new) (archivo_fecha_subida a)
                            (archivo_docente_id a) (archivo_curso_id a))
                _ _ Hrec) as (before & after & Hrows & Hbefore & Hupdated).
    exists before, after. split; [done|]. split.
    { eapply Forall_impl; [exact Hbefore|]. intros r Hr Heq.
      unfold has_nombre in Hr. by rewrite Heq, String.eqb_refl in Hr. }
    unfold login_required.
    rewrite (rename_file_moves sf ev t2 name new w content a) by done.
    by rewrite Hupdated.
Qed.

(** ** Validation of an upload *)

(** The checks [upload] makes before it touches anything: a missing
    file part, an empty file name, and a subject or period that is
    missing or empty as sent. *)
Lemma upload_rejects_missing_fields sf ev u form w :
  form_file form = None
  \/ (exists file, form_file form = Some file /\ filename file = "")
  \/ Py.truthy (form_materia form) = false
  \/ Py.truthy (form_periodo form) = false ->
  exists body, run_request (upload sf ev u form) w = (Returned (Text body 400), w, []).
Proof.
  intros Hbad. unfold upload.
  destruct (form_file form) as [file|] eqn:Hfile.
  - destruct (String.eqb_spec (filename file) "") as [Hempty|Hname].
    + eexists. unfold run_request, ret. by destruct w.
    + destruct (negb (Py.truthy (form_materia form))
                || negb (Py.truthy (form_periodo form))) eqn:Hfields.
      * eexists. unfold run_request, ret. by destruct w.
      * exfalso. apply orb_false_iff in Hfields as [Hm Hp].
        apply negb_false_iff in Hm, Hp.
        destruct Hbad as [?|[(file' & ? & ?)|[?|?]]]; congruence.
  - eexists. unfold run_request, ret. by destruct w.
Qed.

(** ** Further properties of the views *)

(** A successful upload leaves the payload on disk under the sanitised
    name and a row of that name owned by the uploader; where file
    names were unique they still are, and exactly one row has the
    name. *)
Theorem upload_stores_blob_and_record sf ev u file materia periodo w body w' tr :
  let name := sf (filename file) in
  run_request (upload sf ev u (mkUpload (Some file) materia periodo)) w
    = (Returned (Text body 200), w', tr) ->
  w_blobs w' !! name = Some (stream file)
  /\ (exists c, In (mkArchivo name (utcnow ev) (docente_id u) c) (archivos (w_db w')))
  /\ (NoDup (map archivo_nombre (archivos (w_db w))) ->
      NoDup (map archivo_nombre (archivos (w_db w')))
      /\ count_nombre name (archivos (w_db w')) = 1%nat).
Proof.
  intros name Hrun.
  destruct (upload_success_resolved _ _ _ _ _ _ _ _ _ _ Hrun) as (_ & c0 & _ & _ & Hin).
  apply upload_success in Hrun as (m & c & _ & _ & Ha & _ & Hblobs & _).
  fold name in Ha, Hblobs, Hin. split; [|split].
  - rewrite Hblobs. apply lookup_insert_eq.
  - by exists (curso_id c0).
  - intros Hnd. rewrite Ha.
    destruct (first_where (has_nombre name) (archivos (w_db w))) as [a|] eqn:Hfound.
    + rewrite (count_nombre_nombres name _ (archivos (w_db w)))
        by (by apply update_first_nombres).
      rewrite update_first_nombres by done.
      split; [done | by apply (count_nombre_unique _ _ a)].
    + assert (name ∉ map archivo_nombre (archivos (w_db w))) as Hfresh.
      { intros Hin'. apply list_elem_of_fmap in Hin' as (a & Ha' & Hin').
        apply first_where_None_iff in Hfound. rewrite Forall_forall in Hfound.
        specialize (Hfound a Hin'). unfold has_nombre in Hfound.
        by rewrite <- Ha', String.eqb_refl in Hfound. }
      split.
      * rewrite map_app. simpl. by apply NoDup_snoc.
      * rewrite count_nombre_map, map_app, List.filter_app, length_app.
        rewrite <- count_nombre_map, (count_nombre_absent _ _ Hfresh).
        simpl. by rewrite String.eqb_refl.
Qed.

(** A rename whose checks pass and whose store calls succeed moves the
    file and renames the row, keeping its other columns. *)
Theorem rename_file_success sf ev u old new w content a :
  old <> "" -> new <> "" ->
  w_blobs w !! old = Some content ->
  w_blobs w !! final_new_name sf new = None ->
  first_where (has_nombre old) (archivos (w_db w)) = Some a ->
  first_where (has_nombre (final_new_name sf new)) (archivos (w_db w)) = None ->
  fault ev RenameBlob = None ->
  fault ev CommitRename = None ->
  run_request (rename_file sf ev u (Some (mkRename (Some old) (Some new)))) w
  = (Returned (Text ("Archivo renombrado a " +:+ final_new_name sf new +:+ ".") 200),
     mkWorld
       (with_archivos
          (update_first (has_nombre old)
             (fun a => mkArchivo (final_new_name sf new) (archivo_fecha_subida a)
                         (archivo_docente_id a) (archivo_curso_id a))
             (archivos (w_db w)))
          (w_db w))
       (<[final_new_name sf new := content]> (delete old (w_blobs w))),
     [EvRename old (final_new_name sf new); EvCommit]).
Proof.
  intros Ho Hn Hold Hnew Hrec Hclash Hmv Hc.
  unfold rename_file. run_view.
  destruct old as [|o old']; [done|]. destruct new as [|n new']; [done|]. simpl.
  rewrite Hold; simpl. rewrite Hnew; simpl. rewrite Hrec; simpl.
  rewrite Hclash; simpl. rewrite Hold; simpl. rewrite Hmv; simpl.
  by rewrite Hc.
Qed.

(** When the insert of a new subject fails, the clean-up of [upload]
    removes the file of the sanitised name if one is on disk, although
    this upload has not written it. *)
Theorem upload_early_failure_removes_file sf ev u file materia periodo w e content :
  let name := sf (filename file) in
  filename file <> "" -> Py.truthy materia = true -> Py.truthy periodo = true ->
  first_where (materia_named (Py.strip (default "" materia))) (materias (w_db w)) = None ->
  fault ev FlushMateria = Some e ->
  fault ev RemoveUpload = None ->
  w_blobs w !! name = Some content ->
  exists body,
    run_request (upload sf ev u (mkUpload (Some file) materia periodo)) w
    = (Returned (Text body 500), mkWorld (w_db w) (delete name (w_blobs w)),
       [EvRollback; EvRemove name]).
Proof.
  intros name Hname Hm Hp Habsent Hflush Hremove Hblob.
  destruct (run_request _ w) as [[out w'] tr] eqn:Hrun.
  apply String.eqb_neq in Hname. run_upload_in Hrun.
  rewrite Hname, Hm, Hp in Hrun. simpl in Hrun.
  rewrite Habsent in Hrun. simpl in Hrun. rewrite Hflush in Hrun.
  fold name in Hrun.
  destruct e; simpl in Hrun; rewrite Hblob in Hrun; simpl in Hrun;
    rewrite Hblob, Hremove in Hrun; simpl in Hrun; simplify_eq; by eexists.
Qed.

(** ** The data for the upload form *)

Lemma distinct_In v values : In v (distinct values) <-> In v values.
Proof.
  induction values as [|v' values IH]; simpl; [done|].
  rewrite filter_In, IH. split.
  - intros [->|[Hin _]]; tauto.
  - intros [->|Hin]; [by left|].
    destruct (String.eqb_spec v v') as [->|Hne]; [by left|].
    right. by split.
Qed.

Lemma filter_NoDup {A} (p : A -> bool) (l : list A) : NoDup l -> NoDup (List.filter p l).
Proof.
  induction 1 as [|x l Hx Hl IH]; simpl; [constructor|].
  destruct (p x); [|done]. constructor; [|done].
  intros Hin. apply Hx. apply list_elem_of_In, filter_In in Hin as [Hin _].
  by apply list_elem_of_In.
Qed.

Lemma distinct_NoDup values : NoDup (distinct values).
Proof.
  induction values as [|v values IH]; simpl; [constructor|].
  constructor; [|by apply filter_NoDup].
  intros Hin. apply list_elem_of_In, filter_In in Hin as [_ Hne].
  by rewrite String.eqb_refl in Hne.
Qed.

Lemma periodos_of_In docente cs p :
  In p (periodos_of docente cs)
  <-> exists c, In c cs /\ curso_docente_id c = docente /\ curso_periodo c = p.
Proof.
  unfold periodos_of. rewrite in_map_iff. split.
  - intros (c & Hp & Hc). apply filter_In in Hc as [Hc Hd].
    apply Z.eqb_eq in Hd. by exists c.
  - intros (c & Hc & Hd & Hp). exists c. split; [done|].
    apply filter_In. split; [done | by apply Z.eqb_eq].
Qed.

(** The run of [data_for_upload] when its queries succeed. *)
Lemma data_for_upload_run qfault u w :
  qfault QueryMaterias = None -> qfault QueryPeriodos = None ->
  run_data_for_upload qfault u w
  = (mkData None
       (map (fun m => mkItem (materia_id m) (materia_nombre m)) (materias (w_db w)))
       (distinct (periodos_of (docente_id u) (cursos (w_db w)))),
     200, w).
Proof.
  intros Hm Hp. unfold run_data_for_upload, data_for_upload. simpl.
  rewrite Hm, Hp. by destruct w.
Qed.

(** With its queries succeeding, [data_for_upload] answers 200 with
    every subject, in table order, and the periods of the courses of
    the teacher who asks: each once, and no period that only other
    teachers' courses have.  It changes nothing. *)
Theorem data_for_upload_lists qfault u w :
  qfault QueryMaterias = None -> qfault QueryPeriodos = None ->
  exists data,
    run_data_for_upload qfault u w = (data, 200, w)
    /\ data_error data = None
    /\ data_materias data
       = map (fun m => mkItem (materia_id m) (materia_nombre m)) (materias (w_db w))
    /\ NoDup (data_periodos data)
    /\ (forall p, In p (data_periodos data)
                  <-> exists c, In c (cursos (w_db w))
                                /\ curso_docente_id c = docente_id u
                                /\ curso_periodo c = p).
Proof.
  intros Hm Hp. eexists. split; [by apply data_for_upload_run|]. simpl.
  split; [done|]. split; [done|]. split; [apply distinct_NoDup|].
  intros p. by rewrite distinct_In, periodos_of_In.
Qed.

(** When one of its queries raises, [data_for_upload] answers 500 with
    an error text and two empty lists, whatever the tables hold: the
    fixed text for an [OperationalError], the exception's own text
    after a prefix otherwise. *)
Theorem data_for_upload_failure qfault u w e :
  qfault QueryMaterias = Some e
  \/ (qfault QueryMaterias = None /\ qfault QueryPeriodos = Some e) ->
  run_data_for_upload qfault u w
  = (mkData (Some match e with
                  | OperationalError _ =>
                      "Las tablas de la base de datos no están inicializadas."
                  | QueryError msg => "Error al obtener datos: " +:+ msg
                  end) [] [],
     500, w).
Proof.
  intros [Hm|[Hm Hp]]; unfold run_data_for_upload, data_for_upload; simpl;
    rewrite Hm, ?Hp; destruct e; by destruct w.
Qed.

(** The subject and the period of a successful upload are offered to
    the uploader the next time the form asks for its data. *)
Theorem upload_then_data_for_upload sf ev u file materia periodo w body w' tr :
  run_request (upload sf ev u (mkUpload (Some file) materia periodo)) w
    = (Returned (Text body 200), w', tr) ->
  exists data,
    run_data_for_upload no_query_fault u w' = (data, 200, w')
    /\ (exists id, In (mkItem id (Py.strip (default "" materia))) (data_materias data))
    /\ In (Py.strip (default "" periodo)) (data_periodos data).
Proof.
  intros Hrun. apply upload_success_resolved in Hrun as (m & c & Hm & Hc & _).
  eexists. split; [by apply data_for_upload_run|]. simpl.
  apply first_where_holds in Hm as [Hnamed Hm].
  apply first_where_holds in Hc as [Hmatch Hc]. split.
  - exists (materia_id m). apply in_map_iff. exists m.
    split; [|done]. apply String.eqb_eq in Hnamed. by rewrite <- Hnamed.
  - apply distinct_In, periodos_of_In. exists c. split; [done|].
    unfold curso_matches in Hmatch.
    apply andb_prop in Hmatch as [Hmatch Hper]. apply andb_prop in Hmatch as [Hdoc _].
    apply Z.eqb_eq in Hdoc. by apply String.eqb_eq in Hper.
Qed.

(** The courses an exchange adds belong to the teacher who is logged
    in; an exchange without one adds none. *)
Lemma serve_cursos sf w c :
  exists added,
    cursos (w_db (serve sf w c)) = (cursos (w_db w) ++ added)%list
    /\ Forall (fun x => Some (curso_docente_id x) = docente_id <$> call_user c) added.
Proof.
  assert (forall w', cursos (w_db w') = cursos (w_db w) ->
            exists added,
              cursos (w_db w') = (cursos (w_db w) ++ added)%list
              /\ Forall (fun x => Some (curso_docente_id x)
                                  = docente_id <$> call_user c) added) as Hkept.
  { intros w' ->. exists []. by rewrite app_nil_r. }
  unfold serve, dispatch, login_required.
  destruct c as [ev [u|] [form|search|name|name|name|data]]; simpl;
    try (apply Hkept; by destruct w);
    try (apply Hkept;
         unfold list_files, view_file, download_file, send_from_directory, run_request;
         simpl; by repeat (case_match; simpl in *; simplify_eq)).
  - destruct (upload_db_cases sf ev u form w) as [Hdb|(file & body & tr & -> & Hrun)];
      [apply Hkept; by rewrite Hdb|].
    simpl in Hrun. apply upload_success in Hrun as (m & c & _ & Hc & _).
    destruct Hc as [[_ ->]|(_ & -> & ->)].
    + exists []. by rewrite app_nil_r.
    + eexists. split; [done|]. by repeat constructor.
  - apply Hkept; unfold delete_file; run_view;
      repeat (case_match; simpl in *; simplify_eq); done.
  - apply Hkept; unfold rename_file; run_view;
      repeat (case_match; simpl in *; simplify_eq); done.
Qed.

Lemma periodos_of_app docente cs added :
  Forall (fun x => curso_docente_id x <> docente) added ->
  periodos_of docente (cs ++ added) = periodos_of docente cs.
Proof.
  intros Hothers. unfold periodos_of. rewrite List.filter_app, map_app.
  assert (List.filter (fun c => curso_docente_id c =? docente) added = []) as ->.
  { induction Hothers as [|x added Hx _ IH]; simpl; [done|].
    apply Z.eqb_neq in Hx. by rewrite Hx. }
  apply app_nil_r.
Qed.

(** Whatever the other teachers (and clients that are not logged in)
    send, in any number and order, the periods offered to a teacher
    stay the same: they change with that teacher's own uploads only. *)
Theorem data_for_upload_other_teachers sf u w cs :
  Forall (fun c => forall t, call_user c = Some t -> docente_id t <> docente_id u) cs ->
  data_periodos (run_data_for_upload no_query_fault u (serve_all sf w cs)).1.1
  = data_periodos (run_data_for_upload no_query_fault u w).1.1.
Proof.
  intros Hothers.
  assert (periodos_of (docente_id u) (cursos (w_db (serve_all sf w cs)))
          = periodos_of (docente_id u) (cursos (w_db w))) as Hsame.
  { revert w. induction Hothers as [|c cs Hc _ IH]; intros w; simpl; [done|].
    unfold serve_all in *. simpl. rewrite IH.
    destruct (serve_cursos sf w c) as (added & -> & Hadded).
    apply periodos_of_app. eapply Forall_impl; [exact Hadded|].
    intros x Hx Heq. destruct (call_user c) as [t|]; [|done].
    simpl in Hx. injection Hx as Hx. apply (Hc t); [done | congruence]. }
  unfold run_data_for_upload, data_for_upload. simpl. by rewrite Hsame.
Qed.

(** ** Renaming, all the ways it ends *)

(** A body that parsed to a value Python takes as false, or to an
    object in which the old or the new name is missing or empty, is
    refused with 400 before anything is looked up: with the text for
    a missing body in the first case, with the text for missing names
    when the object has one of the two keys. *)
Theorem rename_file_rejects_malformed sf ev u data w :
  (data = None
   \/ exists d, data = Some d
        /\ (Py.truthy (old_name d) = false \/ Py.truthy (new_name d) = false)) ->
  exists body,
    run_request (rename_file sf ev u data) w = (Returned (Text body 400), w, [])
    /\ (data = None -> body = "No se recibió información JSON.")
    /\ (forall d, data = Some d -> is_Some (old_name d) \/ is_Some (new_name d) ->
          body = "Se requiere el nombre antiguo y el nuevo nombre").
Proof.
  intros [->|(d & -> & Hbad)]; unfold rename_file, run_request, ret.
  - eexists. split; [by destruct w|]. split; [done | by intros d [=]].
  - assert (negb (Py.truthy (old_name d)) || negb (Py.truthy (new_name d)) = true) as ->.
    { destruct Hbad as [->| ->]; [done | apply orb_true_r]. }
    eexists. split; [by destruct w|]. split; [done | by intros d' _ _].
Qed.

(** When [os.rename] raises, the view answers 500 with the text of the
    exception; the row keeps its name and nothing has moved. *)
Theorem rename_file_fs_failure sf ev u old new w content a e :
  old <> "" -> new <> "" ->
  w_blobs w !! old = Some content ->
  w_blobs w !! final_new_name sf new = None ->
  first_where (has_nombre old) (archivos (w_db w)) = Some a ->
  first_where (has_nombre (final_new_name sf new)) (archivos (w_db w)) = None ->
  fault ev RenameBlob = Some e ->
  run_request (rename_file sf ev u (Some (mkRename (Some old) (Some new)))) w
  = (Returned (Text ("Error en el sistema de archivos: " +:+ str_exn e) 500), w, []).
Proof.
  intros Ho Hn Hold Hnew Hrec Hclash Hmv.
  unfold rename_file. run_view.
  destruct old as [|o old']; [done|]. destruct new as [|n new']; [done|]. simpl.
  rewrite Hold; simpl. rewrite Hnew; simpl. rewrite Hrec; simpl.
  rewrite Hclash; simpl. rewrite Hold; simpl. rewrite Hmv; simpl.
  by destruct w.
Qed.

Lemma rename_error_world sf ev u data w body status w' tr :
  run_request (rename_file sf ev u data) w = (Returned (Text body status), w', tr) ->
  status <> 200 ->
  w' = w.
Proof.
  intros Hrun Hstatus. unfold rename_file in Hrun. run_view_in Hrun.
  repeat (case_match; simpl in *; simplify_eq); try (by destruct w).
  simpl in *.
  match goal with
  | Hmoved : <[_ := _]> _ !! _ = Some _ |- _ =>
      rewrite lookup_insert_eq in Hmoved; simplify_eq
  end.
  match goal with
  | Hfree : bool_decide _ = false |- _ =>
      apply bool_decide_eq_false in Hfree; rewrite <- eq_None_not_Some in Hfree
  end.
  rewrite rename_there_and_back by done. by destruct w.
Qed.

(** Every rename that is answered with anything but 200 has left both
    stores exactly as they were: the refusals, the failure of
    [os.rename], and the failed commit once the file is moved back. *)
Theorem rename_file_error_atomic sf ev u data w body status w' tr :
  run_request (rename_file sf ev u data) w = (Returned (Text body status), w', tr) ->
  status <> 200 ->
  w' = w.
Proof. apply rename_error_world. Qed.

(** ** Listing, for any search string *)

(** The rows [list_files] shows: joined rows whose file is on disk and
    which pass the [WHERE] clause, when there is one. *)
Lemma listed_rows_In q s r :
  In r (listed_rows q s)
  <-> In r (joined (pending s))
      /\ is_Some (disk s !! row_nombre r)
      /\ (q = "" \/ search_filter q r = true).
Proof.
  unfold listed_rows, list_query. rewrite filter_In.
  rewrite <- !list_elem_of_In, order_by_fecha_desc_perm, !list_elem_of_In.
  rewrite bool_decide_eq_true. destruct q as [|c q'].
  - split; [intros [? ?]; by eauto | tauto].
  - rewrite filter_In. split; [tauto|].
    intros (? & ? & [?|?]); [done | tauto].
Qed.

(** Whatever is searched for, wildcards included, [list_files] answers
    with rows of the join whose file is on disk, newest first, each of
    which the listing without a search also shows; it changes
    nothing. *)
Theorem list_files_sound ev u search w :
  exists rows,
    run_request (list_files ev u search) w = (Returned (Json (map entry_of rows)), w, [])
    /\ StronglySorted newer_first rows
    /\ (forall r, In r rows ->
          In r (joined (w_db w)) /\ is_Some (w_blobs w !! row_nombre r))
    /\ (forall r, In r rows ->
          exists rows_all,
            run_request (list_files ev u None) w
              = (Returned (Json (map entry_of rows_all)), w, [])
            /\ In r rows_all).
Proof.
  set (s := mkSession (w_db w) (w_db w) (w_blobs w) []).
  exists (listed_rows (Py.str_lower (default "" search)) s).
  split; [by destruct w|]. split; [|split].
  - apply filter_sorted, order_by_fecha_desc_sorted.
  - intros r Hr. apply listed_rows_In in Hr. tauto.
  - intros r Hr. exists (listed_rows "" s). split; [by destruct w|].
    apply listed_rows_In in Hr. apply listed_rows_In. tauto.
Qed.

(** ** One request after another *)

(** What was uploaded is what [view_file] and [download_file] serve
    under the sanitised name. *)
Theorem upload_then_view sf ev ev' u t file materia periodo w body w' tr :
  run_request (upload sf ev u (mkUpload (Some file) materia periodo)) w
    = (Returned (Text body 200), w', tr) ->
  run_request (view_file ev' t (sf (filename file))) w'
    = (Returned (SendFile (stream file) false), w', [])
  /\ run_request (download_file ev' t (sf (filename file))) w'
     = (Returned (SendFile (stream file) true), w', []).
Proof.
  intros Hrun. apply upload_success in Hrun as (_ & _ & _ & _ & _ & _ & Hblobs & _).
  assert (w_blobs w' !! sf (filename file) = Some (stream file)) as Hfile
    by (rewrite Hblobs; apply lookup_insert_eq).
  unfold view_file, download_file, send_from_directory, run_request. simpl.
  rewrite Hfile. split; by destruct w'.
Qed.

(** A successful upload by a teacher who has a [Docente] row shows in
    the listing at once, under the trimmed subject and period, with
    the uploader's name. *)
Theorem upload_then_list sf ev ev' u t file materia periodo w body w' tr :
  In u (docentes (w_db w)) ->
  run_request (upload sf ev u (mkUpload (Some file) materia periodo)) w
    = (Returned (Text body 200), w', tr) ->
  exists rows,
    run_request (list_files ev' t None) w' = (Returned (Json (map entry_of rows)), w', [])
    /\ In (mkRow (sf (filename file)) (utcnow ev) (docente_nombre u)
             (Py.strip (default "" materia)) (Py.strip (default "" periodo))) rows.
Proof.
  intros Hu Hrun.
  destruct (upload_success_resolved _ _ _ _ _ _ _ _ _ _ Hrun) as (m & c & Hm & Hc & Ha).
  apply upload_success in Hrun as (_ & _ & _ & _ & _ & Hdoc & Hblobs & _).
  exists (listed_rows "" (mkSession (w_db w') (w_db w') (w_blobs w') [])).
  split; [by destruct w'|]. apply listed_rows_In. simpl.
  split; [|split; [|by left]].
  - apply first_where_holds in Hm as [Hnamed Hm].
    apply first_where_holds in Hc as [Hmatch Hc].
    unfold curso_matches in Hmatch.
    apply andb_prop in Hmatch as [Hmatch Hper]. apply andb_prop in Hmatch as [_ Hmat].
    apply Z.eqb_eq in Hmat. apply String.eqb_eq in Hper, Hnamed.
    apply joined_spec. eexists _, u, c, m.
    split; [exact Ha|]. split; [by rewrite Hdoc|]. split; [done|]. split; [done|].
    simpl. split; [done|]. split; [done|]. split; [done|]. by rewrite Hnamed, Hper.
  - rewrite Hblobs, lookup_insert_eq. by eexists.
Qed.

(** After [delete_file], with its store calls succeeding, the name is
    gone for the readers: [view_file] and [download_file] answer 404
    and no listing, whatever the search, shows a row of that name. *)
Theorem delete_then_gone ev ev' u t f search w :
  fault ev CommitDelete = None -> fault ev RemoveDelete = None ->
  let w' := (run_request (delete_file ev u f) w).1.2 in
  run_request (view_file ev' t f) w' = (Returned (Aborted 404), w', [])
  /\ run_request (download_file ev' t f) w' = (Returned (Aborted 404), w', [])
  /\ exists rows,
       run_request (list_files ev' t search) w'
         = (Returned (Json (map entry_of rows)), w', [])
       /\ Forall (fun r => row_nombre r <> f) rows.
Proof.
  intros Hc Hr w'.
  assert (w_blobs w' !! f = None) as Hgone.
  { subst w'. rewrite delete_file_run by done.
    destruct (w_blobs w !! f) eqn:Hb; simpl; [apply lookup_delete_eq | done]. }
  clearbody w'. unfold view_file, download_file, send_from_directory, run_request. simpl.
  rewrite Hgone. split; [by destruct w'|]. split; [by destruct w'|].
  eexists. split; [by destruct w'|].
  apply Forall_forall. intros r Hr' Heq.
  apply list_elem_of_In, listed_rows_In in Hr' as (_ & [content Hcontent] & _).
  simpl in Hcontent. rewrite Heq in Hcontent. congruence.
Qed.

Lemma final_new_name_nonempty sf raw : final_new_name sf raw <> "".
Proof.
  unfold final_new_name.
  destruct (Py.endswith ".pdf" (Py.lower (sf raw))) eqn:Hpdf; simpl.
  - intros Hempty. by rewrite Hempty in Hpdf.
  - by destruct (sf raw).
Qed.

Lemma update_first_there_and_back old target rows a :
  first_where (has_nombre old) rows = Some a ->
  first_where (has_nombre target) rows = None ->
  update_first (has_nombre target)
    (fun a => mkArchivo old (archivo_fecha_subida a) (archivo_docente_id a)
                (archivo_curso_id a))
    (update_first (has_nombre old)
       (fun a => mkArchivo target (archivo_fecha_subida a) (archivo_docente_id a)
                   (archivo_curso_id a))
       rows)
  = rows.
Proof.
  unfold first_where. induction rows as [|r rows IH]; simpl; [done|].
  destruct (has_nombre target r) eqn:Htarget; [done|].
  destruct (has_nombre old r) eqn:Hold; simpl.
  - intros _ _. unfold has_nombre at 1. simpl. rewrite String.eqb_refl.
    apply String.eqb_eq in Hold. destruct r. simpl in *. by subst.
  - intros Hfound Hnone. rewrite Htarget. f_equal. by apply IH.
Qed.

Lemma update_first_leaves_none old target rows a :
  NoDup (map archivo_nombre rows) ->
  old <> target ->
  first_where (has_nombre old) rows = Some a ->
  first_where (has_nombre old)
    (update_first (has_nombre old)
       (fun a => mkArchivo target (archivo_fecha_subida a) (archivo_docente_id a)
                   (archivo_curso_id a))
       rows)
  = None.
Proof.
  unfold first_where. intros Hnd Hne.
  induction rows as [|r rows IH]; simpl; [done|].
  apply NoDup_cons in Hnd as [Hfresh Hnd].
  destruct (has_nombre old r) eqn:Hold; simpl.
  - intros _. unfold has_nombre at 1. simpl.
    apply not_eq_sym, String.eqb_neq in Hne. rewrite Hne.
    apply String.eqb_eq in Hold. rewrite Hold in Hfresh.
    apply first_where_None_iff, Forall_forall. intros x Hx.
    apply String.eqb_neq. intros Heq. apply Hfresh. rewrite <- Heq.
    by apply list_elem_of_fmap_2.
  - rewrite Hold. by apply IH.
Qed.

Lemma first_where_renamed old target rows a :
  first_where (has_nombre old) rows = Some a ->
  first_where (has_nombre target) rows = None ->
  is_Some (first_where (has_nombre target)
             (update_first (has_nombre old)
                (fun a => mkArchivo target (archivo_fecha_subida a)
                            (archivo_docente_id a) (archivo_curso_id a))
                rows)).
Proof.
  unfold first_where. induction rows as [|r rows IH]; simpl; [done|].
  destruct (has_nombre target r) eqn:Htarget; [done|].
  destruct (has_nombre old r) eqn:Hold; simpl.
  - intros _ _. unfold has_nombre at 1. simpl. rewrite String.eqb_refl. by eexists.
  - rewrite Htarget. apply IH.
Qed.

(** Renaming a file and then renaming it back, the second request
    giving a name that is sanitised to the old one, restores both
    stores as they were (file names being unique). *)
Theorem rename_there_and_back_again sf ev ev' u t old new back w content a :
  old <> "" -> new <> "" -> back <> "" ->
  final_new_name sf back = old ->
  w_blobs w !! old = Some content ->
  w_blobs w !! final_new_name sf new = None ->
  first_where (has_nombre old) (archivos (w_db w)) = Some a ->
  first_where (has_nombre (final_new_name sf new)) (archivos (w_db w)) = None ->
  NoDup (map archivo_nombre (archivos (w_db w))) ->
  fault ev RenameBlob = None -> fault ev CommitRename = None ->
  fault ev' RenameBlob = None -> fault ev' CommitRename = None ->
  run_request
    (rename_file sf ev' t (Some (mkRename (Some (final_new_name sf new)) (Some back))))
    (run_request (rename_file sf ev u (Some (mkRename (Some old) (Some new)))) w).1.2
  = (Returned (Text ("Archivo renombrado a " +:+ old +:+ ".") 200), w,
     [EvRename (final_new_name sf new) old; EvCommit]).
Proof.
  intros Ho Hn Hb Hback Hold Hnew Hrec Hclash Hnd Hmv Hc Hmv' Hc'.
  assert (old <> final_new_name sf new) as Hne by congruence.
  rewrite (rename_file_moves sf ev u old new w content a) by done. simpl.
  destruct (first_where_renamed _ _ _ _ Hrec Hclash) as [a' Ha'].
  pose proof (final_new_name_nonempty sf new) as Htarget.
  rewrite (rename_file_moves sf ev' t (final_new_name sf new) back _ content a');
    rewrite ?Hback; simpl; try done.
  - rewrite (update_first_there_and_back _ _ _ _ Hrec Hclash).
    rewrite rename_there_and_back by done.
    destruct w as [d m]. by destruct d.
  - apply lookup_insert_eq.
  - rewrite lookup_insert_ne by done. apply lookup_delete_eq.
  - by apply (update_first_leaves_none _ _ _ a).
Qed.

Lemma endswith_app suffix s : Py.endswith suffix (s +:+ suffix) = true.
Proof.
  induction s as [|c s IH]; simpl.
  - destruct suffix; simpl; by rewrite ?Ascii.eqb_refl, ?String.eqb_refl.
  - rewrite IH. apply orb_true_r.
Qed.

(** The name [rename_file] gives a file is never empty and always ends
    in [.pdf], in some letter case; a sanitised name that already ends
    so is kept as it is, so naming twice changes nothing for names the
    sanitiser leaves alone. *)
Theorem final_new_name_is_pdf sf raw :
  Py.endswith ".pdf" (Py.lower (final_new_name sf raw)) = true
  /\ final_new_name sf raw <> ""
  /\ (Py.endswith ".pdf" (Py.lower (sf raw)) = true -> final_new_name sf raw = sf raw)
  /\ (sf (final_new_name sf raw) = final_new_name sf raw ->
      final_new_name sf (final_new_name sf raw) = final_new_name sf raw).
Proof.
  assert (Py.endswith ".pdf" (Py.lower (final_new_name sf raw)) = true) as Hpdf.
  { unfold final_new_name.
    destruct (Py.endswith ".pdf" (Py.lower (sf raw))) eqn:Hends; simpl; [done|].
    rewrite lower_app. apply (endswith_app ".pdf"). }
  split; [done|]. split; [apply final_new_name_nonempty|]. split.
  - intros Hends. unfold final_new_name. by rewrite Hends.
  - intros Hfixed. unfold final_new_name at 1. by rewrite Hfixed, Hpdf.
Qed.

Lemma delete_first_appended {A} (p : A -> bool) rows r :
  first_where p rows = None -> p r = true -> delete_first p (rows ++ [r]) = rows.
Proof.
  unfold first_where. induction rows as [|r' rows IH]; simpl.
  - by intros _ ->.
  - destruct (p r'); [done|]. intros Hnone Hr. by rewrite IH.
Qed.

(** Uploading a file under a name that is free and deleting it again
    leaves the file rows and the directory as they were; the subject
    and the course the upload may have created stay. *)
Theorem upload_then_delete sf ev ev' u t file materia periodo w body w' tr :
  let name := sf (filename file) in
  first_where (has_nombre name) (archivos (w_db w)) = None ->
  w_blobs w !! name = None ->
  run_request (upload sf ev u (mkUpload (Some file) materia periodo)) w
    = (Returned (Text body 200), w', tr) ->
  fault ev' CommitDelete = None -> fault ev' RemoveDelete = None ->
  run_request (delete_file ev' t name) w'
  = (Returned delete_full_success,
     mkWorld (with_archivos (archivos (w_db w)) (w_db w')) (w_blobs w),
     [EvCommit; EvRemove name]).
Proof.
  intros name Hrow Hblob Hrun Hc Hr.
  apply upload_success in Hrun as (m & c & _ & _ & Ha & _ & Hblobs & _).
  fold name in Ha, Hblobs. rewrite Hrow in Ha.
  rewrite delete_file_run by done.
  rewrite Hblobs, lookup_insert_eq, delete_insert_eq, (delete_id _ _ Hblob).
  rewrite Ha.
  assert (has_nombre name (mkArchivo name (utcnow ev) (docente_id u) (curso_id c)) = true)
    as Hnew by apply String.eqb_refl.
  by rewrite (first_where_app_absent _ _ _ Hrow Hnew), (delete_first_appended _ _ _ Hrow Hnew).
Qed.

(** ** What a request leaves alone, and what every request keeps *)

(** All the ways [delete_file] may end. *)
Lemma delete_effects ev u f w :
  let w' := (run_request (delete_file ev u f) w).1.2 in
  docentes (w_db w') = docentes (w_db w)
  /\ materias (w_db w') = materias (w_db w)
  /\ cursos (w_db w') = cursos (w_db w)
  /\ (archivos (w_db w') = archivos (w_db w)
      \/ archivos (w_db w') = delete_first (has_nombre f) (archivos (w_db w)))
  /\ (w_blobs w' = w_blobs w \/ w_blobs w' = delete f (w_blobs w)).
Proof.
  unfold delete_file. run_view.
  repeat (case_match; simpl in *; simplify_eq); repeat split; auto.
Qed.

(** All the ways [rename_file] may end, once it has its two names. *)
Lemma rename_effects sf ev u d w :
  let old := default "" (old_name d) in
  let target := final_new_name sf (default "" (new_name d)) in
  let w' := (run_request (rename_file sf ev u (Some d)) w).1.2 in
  w' = w
  \/ exists content,
       w_blobs w !! old = Some content
       /\ w_blobs w !! target = None
       /\ first_where (has_nombre target) (archivos (w_db w)) = None
       /\ w_blobs w' = <[target := content]> (delete old (w_blobs w))
       /\ (w_db w' = w_db w
           \/ w_db w'
              = with_archivos
                  (update_first (has_nombre old)
                     (fun a => mkArchivo target (archivo_fecha_subida a)
                                 (archivo_docente_id a) (archivo_curso_id a))
                     (archivos (w_db w)))
                  (w_db w)).
Proof.
  intros old target w'. subst old target w'.
  destruct (run_request _ w) as [[out w'] tr] eqn:Hrun.
  pose proof Hrun as Hkeep. destruct out as [[body status| | | |]|e].
  2-5: unfold rename_file in Hrun; run_view_in Hrun;
       repeat (case_match; simpl in *; simplify_eq).
  - destruct (decide (status = 200)) as [->|Hstatus].
    + right. unfold rename_file in Hrun. run_view_in Hrun.
      repeat (case_match; simpl in *; simplify_eq).
      match goal with
      | Hfree : bool_decide _ = false |- _ =>
          apply bool_decide_eq_false in Hfree; rewrite <- eq_None_not_Some in Hfree
      end.
      eexists. repeat split; eauto.
    + left. simpl. by apply (rename_error_world _ _ _ _ _ _ _ _ _ Hkeep).
  - right. unfold rename_file in Hrun. run_view_in Hrun.
    repeat (case_match; simpl in *; simplify_eq).
    all: simpl in *.
    all: match goal with
         | Hfree : bool_decide _ = false |- _ =>
             apply bool_decide_eq_false in Hfree; rewrite <- eq_None_not_Some in Hfree
         end.
    all: eexists; repeat split; eauto.
Qed.

(** Whatever way an upload ends, the files under other names are as
    they were. *)
Lemma upload_blobs_frame sf ev u file materia periodo w n :
  sf (filename file) <> n ->
  w_blobs (run_request (upload sf ev u (mkUpload (Some file) materia periodo)) w).1.2 !! n
  = w_blobs w !! n.
Proof.
  intros Hne. destruct (run_request _ w) as [[out w'] tr] eqn:Hrun.
  run_upload_in Hrun.
  repeat (case_match; simpl in *; simplify_eq);
    by rewrite ?lookup_delete_ne, ?lookup_insert_ne by done.
Qed.

Lemma filter_update_first_frame {A} (q p : A -> bool) f rows :
  (forall a, p a = true -> q a = false /\ q (f a) = false) ->
  List.filter q (update_first p f rows) = List.filter q rows.
Proof.
  intros Hpq. induction rows as [|r rows IH]; simpl; [done|].
  destruct (p r) eqn:Hp; simpl.
  - destruct (Hpq r Hp) as [-> ->]. done.
  - by rewrite IH.
Qed.

Lemma filter_delete_first_frame {A} (q p : A -> bool) rows :
  (forall a, p a = true -> q a = false) ->
  List.filter q (delete_first p rows) = List.filter q rows.
Proof.
  intros Hpq. induction rows as [|r rows IH]; simpl; [done|].
  destruct (p r) eqn:Hp; simpl.
  - by rewrite (Hpq r Hp).
  - by rewrite IH.
Qed.

Lemma has_nombre_other n name a :
  name <> n -> has_nombre name a = true -> has_nombre n a = false.
Proof.
  unfold has_nombre. intros Hne Ha. apply String.eqb_eq in Ha.
  apply String.eqb_neq. congruence.
Qed.

(** One exchange leaves alone the file and the rows of every name it
    does not address. *)
Lemma serve_frame sf w c n :
  ~ In n (addressed sf (call_request c)) ->
  w_blobs (serve sf w c) !! n = w_blobs w !! n
  /\ List.filter (has_nombre n) (archivos (w_db (serve sf w c)))
     = List.filter (has_nombre n) (archivos (w_db w)).
Proof.
  unfold serve, dispatch, login_required.
  destruct c as [ev [u|] [form|search|name|name|name|data]]; simpl; intros Hn;
    try (by destruct w);
    try (unfold list_files, view_file, download_file, send_from_directory, run_request;
         simpl; by repeat (case_match; simpl in *; simplify_eq)).
  - destruct form as [[file|] materia periodo]; simpl in Hn.
    + assert (sf (filename file) <> n) as Hne by tauto.
      split; [by apply upload_blobs_frame|].
      destruct (upload_db_cases sf ev u (mkUpload (Some file) materia periodo) w)
        as [->|(file' & body & tr & Hform & Hrun)]; [done|].
      simpl in Hrun. apply upload_success in Hrun as (m & c & _ & _ & -> & _).
      destruct (first_where _ (archivos (w_db w))) as [found|].
      * apply filter_update_first_frame. intros row Hrow.
        split; [by apply (has_nombre_other _ (sf (filename file)))|].
        unfold has_nombre in *. simpl. apply String.eqb_eq in Hrow.
        apply String.eqb_neq. congruence.
      * rewrite List.filter_app. simpl. unfold has_nombre at 2. simpl.
        apply String.eqb_neq in Hne. rewrite Hne. apply app_nil_r.
    + by destruct w.
  - assert (name <> n) as Hne by tauto.
    destruct (delete_effects ev u name w) as (_ & _ & _ & Ha & Hb). split.
    + destruct Hb as [->| ->]; [done | by apply lookup_delete_ne].
    + destruct Ha as [->| ->]; [done|].
      apply filter_delete_first_frame. intros a.
      by apply has_nombre_other.
  - destruct data as [d|]; [|by destruct w]. simpl in Hn.
    assert (default "" (old_name d) <> n) as Hold by tauto.
    assert (final_new_name sf (default "" (new_name d)) <> n) as Htarget by tauto.
    destruct (rename_effects sf ev u d w)
      as [->|(content & _ & _ & _ & -> & Hdb)]; [done|]. split.
    + rewrite lookup_insert_ne by done. by apply lookup_delete_ne.
    + destruct Hdb as [->| ->]; [done|]. simpl.
      apply filter_update_first_frame. intros a Ha.
      split; [by apply (has_nombre_other _ (default "" (old_name d)))|].
      unfold has_nombre. simpl. by apply String.eqb_neq.
Qed.

(** Whatever requests are served, in any number and order, each
    addressing plain file names only, a plain file name none of them
    addresses keeps its file, content included, and its rows. *)
Theorem serve_all_frame sf w cs n :
  plain_name n = true ->
  Forall (fun c => Forall (fun a => plain_name a = true) (addressed sf (call_request c))
                   /\ ~ In n (addressed sf (call_request c))) cs ->
  w_blobs (serve_all sf w cs) !! n = w_blobs w !! n
  /\ List.filter (has_nombre n) (archivos (w_db (serve_all sf w cs)))
     = List.filter (has_nombre n) (archivos (w_db w)).
Proof.
  intros _ Hcs. revert w. induction Hcs as [|c cs [_ Hc] _ IH]; intros w; [done|].
  unfold serve_all in *. simpl.
  destruct (IH (serve sf w c)) as [-> ->]. by apply serve_frame.
Qed.

Lemma next_id_above ids x : In x ids -> x < next_id ids.
Proof.
  unfold next_id. induction ids as [|y ids IH]; simpl; [done|].
  intros [->|Hin]; [lia|]. specialize (IH Hin). lia.
Qed.

Lemma next_id_fresh ids : next_id ids ∉ ids.
Proof.
  intros Hin. apply list_elem_of_In, next_id_above in Hin. lia.
Qed.

Lemma delete_first_In {A} (p : A -> bool) rows r :
  In r (delete_first p rows) -> In r rows.
Proof.
  induction rows as [|r' rows IH]; simpl; [done|].
  destruct (p r'); simpl; [tauto|]. intros [->|Hin]; [by left | right; by apply IH].
Qed.

Lemma delete_first_nombres_NoDup p rows :
  NoDup (map archivo_nombre rows) -> NoDup (map archivo_nombre (delete_first p rows)).
Proof.
  induction rows as [|r rows IH]; simpl; [done|].
  intros Hnd. apply NoDup_cons in Hnd as [Hfresh Hnd].
  destruct (p r); [done|]. simpl. apply NoDup_cons. split; [|by apply IH].
  intros Hin. apply Hfresh.
  apply list_elem_of_fmap in Hin as (a & -> & Ha).
  apply list_elem_of_fmap_2. by apply list_elem_of_In, (delete_first_In p), list_elem_of_In.
Qed.

Lemma update_first_In {A} (p : A -> bool) f rows r :
  In r (update_first p f rows) -> In r rows \/ exists r', In r' rows /\ p r' = true /\ r = f r'.
Proof.
  induction rows as [|r' rows IH]; simpl; [done|].
  destruct (p r') eqn:Hp; simpl.
  - intros [<-|Hin]; [right; exists r'; tauto | tauto].
  - intros [->|Hin]; [tauto|].
    destruct (IH Hin) as [?|(x & ? & ? & ?)]; [tauto | right; exists x; tauto].
Qed.

Lemma rename_nombres_NoDup old target rows :
  NoDup (map archivo_nombre rows) ->
  first_where (has_nombre target) rows = None ->
  NoDup (map archivo_nombre
           (update_first (has_nombre old)
              (fun a => mkArchivo target (archivo_fecha_subida a) (archivo_docente_id a)
                          (archivo_curso_id a))
              rows)).
Proof.
  intros Hnd Hnone.
  assert (target ∉ map archivo_nombre rows) as Htarget.
  { intros Hin. apply list_elem_of_fmap in Hin as (a & Ha & Hin).
    apply first_where_None_iff in Hnone. rewrite Forall_forall in Hnone.
    specialize (Hnone a Hin). unfold has_nombre in Hnone.
    by rewrite <- Ha, String.eqb_refl in Hnone. }
  clear Hnone. induction rows as [|r rows IH]; simpl; [done|].
  apply NoDup_cons in Hnd as [Hfresh Hnd].
  apply not_elem_of_cons in Htarget as [Hne Htarget].
  destruct (has_nombre old r); simpl.
  - by apply NoDup_cons.
  - apply NoDup_cons. split; [|by apply IH].
    intros Hin. apply list_elem_of_fmap in Hin as (a & Ha & Hin).
    apply list_elem_of_In, update_first_In in Hin as [Hin|(a' & Hin & _ & ->)].
    + apply Hfresh. rewrite Ha. by apply list_elem_of_fmap_2, list_elem_of_In.
    + simpl in Ha. congruence.
Qed.

(** A successful upload keeps file names unique. *)
Lemma upload_keeps_nombres sf ev u file materia periodo w body w' tr :
  run_request (upload sf ev u (mkUpload (Some file) materia periodo)) w
    = (Returned (Text body 200), w', tr) ->
  NoDup (map archivo_nombre (archivos (w_db w))) ->
  NoDup (map archivo_nombre (archivos (w_db w'))).
Proof.
  intros Hrun Hnd. apply upload_success in Hrun as (m & c & _ & _ & -> & _).
  destruct (first_where _ (archivos (w_db w))) as [found|] eqn:Hfound.
  - by rewrite update_first_nombres.
  - rewrite map_app. simpl. apply NoDup_snoc; [done|].
    intros Hin. apply list_elem_of_fmap in Hin as (a & Ha & Hin).
    apply first_where_None_iff in Hfound. rewrite Forall_forall in Hfound.
    specialize (Hfound a Hin). unfold has_nombre in Hfound.
    by rewrite <- Ha, String.eqb_refl in Hfound.
Qed.

Lemma serve_keeps_keys sf w c :
  keys_unique (w_db w) -> keys_unique (w_db (serve sf w c)).
Proof.
  intros (Hnombres & Hmaterias & Hcursos).
  unfold serve, dispatch, login_required.
  destruct c as [ev [u|] [form|search|name|name|name|data]]; simpl;
    try (by destruct w);
    try (unfold list_files, view_file, download_file, send_from_directory, run_request;
         simpl; by repeat (case_match; simpl in *; simplify_eq)).
  - destruct (upload_db_cases sf ev u form w) as [->|(file & body & tr & -> & Hrun)];
      [done|].
    simpl in Hrun. split; [by apply (upload_keeps_nombres _ _ _ _ _ _ _ _ _ _ Hrun)|].
    apply upload_success in Hrun as (m & c & Hm & Hc & _). split.
    + destruct Hm as [[_ ->]|(_ & -> & ->)]; [done|].
      rewrite map_app. simpl. apply NoDup_snoc; [done | apply next_id_fresh].
    + destruct Hc as [[_ ->]|(_ & -> & ->)]; [done|].
      rewrite map_app. simpl. apply NoDup_snoc; [done | apply next_id_fresh].
  - destruct (delete_effects ev u name w) as (_ & Hm & Hc & Ha & _).
    unfold keys_unique. rewrite Hm, Hc.
    split; [|done]. destruct Ha as [->| ->]; [done|].
    by apply delete_first_nombres_NoDup.
  - destruct data as [d|]; [|by destruct w].
    destruct (rename_effects sf ev u d w)
      as [->|(content & _ & _ & Hfree & _ & [Hdb|Hdb])]; [done|..];
      unfold keys_unique; rewrite Hdb; [done|].
    simpl. split; [|done]. by apply rename_nombres_NoDup.
Qed.

(** Whatever requests are served, file names stay unique, and so do
    the primary keys of subjects and courses: every view looks a name
    up before it inserts or renames, and a new key is one past the
    largest. *)
Theorem serve_all_keeps_keys sf w cs :
  keys_unique (w_db w) -> keys_unique (w_db (serve_all sf w cs)).
Proof.
  revert w. induction cs as [|c cs IH]; intros w Hw; [done|].
  unfold serve_all in *. simpl. by apply IH, serve_keeps_keys.
Qed.

(** A successful upload keeps every reference resolved. *)
Lemma upload_keeps_references sf ev u file materia periodo w body w' tr :
  run_request (upload sf ev u (mkUpload (Some file) materia periodo)) w
    = (Returned (Text body 200), w', tr) ->
  references_resolve (w_db w) -> references_resolve (w_db w').
Proof.
  intros Hrun [Harchivos Hcursos].
  apply upload_success in Hrun as (m & c & Hm & Hc & Ha & _).
  assert (forall x, In x (materias (w_db w)) -> In x (materias (w_db w'))) as Hms.
  { intros x Hx. destruct Hm as [[_ ->]|(_ & _ & ->)]; [done|].
    apply in_or_app. by left. }
  assert (In m (materias (w_db w'))) as Hm_in.
  { destruct Hm as [[Hm ->]|(_ & _ & ->)].
    - by apply first_where_holds in Hm as [_ Hm].
    - apply in_or_app. right. by left. }
  assert (forall x, In x (cursos (w_db w)) -> In x (cursos (w_db w'))) as Hcs.
  { intros x Hx. destruct Hc as [[_ ->]|(_ & _ & ->)]; [done|].
    apply in_or_app. by left. }
  assert (In c (cursos (w_db w')) /\ curso_materia_id c = materia_id m) as [Hc_in Hc_m].
  { destruct Hc as [[Hc ->]|(_ & -> & ->)].
    - apply first_where_holds in Hc as [Hmatch Hc]. split; [done|].
      unfold curso_matches in Hmatch.
      apply andb_prop in Hmatch as [Hmatch _]. apply andb_prop in Hmatch as [_ Hmat].
      by apply Z.eqb_eq in Hmat.
    - split; [|done]. apply in_or_app. right. by left. }
  split.
  - intros a Hin. rewrite Ha in Hin.
    assert (In a (archivos (w_db w)) \/ archivo_curso_id a = curso_id c) as [Hold|Hnew].
    { destruct (first_where _ (archivos (w_db w))).
      - apply update_first_In in Hin as [?|(a' & _ & _ & ->)]; [by left | by right].
      - apply in_app_or in Hin as [?|[<-|[]]]; [by left | by right]. }
    + destruct (Harchivos a Hold) as (c' & Hc' & Hid). exists c'. by split; [apply Hcs|].
    + exists c. by split.
  - intros c' Hin.
    assert (In c' (cursos (w_db w)) \/ c' = c) as [Hold| ->].
    { destruct Hc as [[_ Heq]|(_ & _ & Heq)]; rewrite Heq in Hin; [by left|].
      apply in_app_or in Hin as [?|[<-|[]]]; [by left | by right]. }
    + destruct (Hcursos c' Hold) as (m' & Hm' & Hid). exists m'. by split; [apply Hms|].
    + exists m. by split.
Qed.

Lemma serve_keeps_references sf w c :
  references_resolve (w_db w) -> references_resolve (w_db (serve sf w c)).
Proof.
  intros Hrefs. unfold serve, dispatch, login_required.
  destruct c as [ev [u|] [form|search|name|name|name|data]]; simpl;
    try (by destruct w);
    try (unfold list_files, view_file, download_file, send_from_directory, run_request;
         simpl; by repeat (case_match; simpl in *; simplify_eq)).
  - destruct (upload_db_cases sf ev u form w) as [->|(file & body & tr & -> & Hrun)];
      [done|].
    simpl in Hrun. by apply (upload_keeps_references _ _ _ _ _ _ _ _ _ _ Hrun).
  - destruct Hrefs as [Harchivos Hcursos].
    destruct (delete_effects ev u name w) as (_ & Hm & Hc & Ha & _).
    unfold references_resolve. rewrite Hm, Hc. split; [|done].
    intros a Hin. apply Harchivos.
    destruct Ha as [Ha|Ha]; rewrite Ha in Hin; [done | by apply delete_first_In in Hin].
  - destruct data as [d|]; [|by destruct w].
    destruct Hrefs as [Harchivos Hcursos].
    destruct (rename_effects sf ev u d w)
      as [->|(content & _ & _ & _ & _ & [Hdb|Hdb])]; [done|..];
      unfold references_resolve; rewrite Hdb; [done|].
    simpl. split; [|done]. intros a Hin.
    apply update_first_In in Hin as [?|(a' & Hin & _ & ->)]; [by apply Harchivos|].
    simpl. by apply Harchivos.
Qed.

(** Whatever requests are served, every file row keeps naming a course
    that exists and every course a subject that exists: the views add
    a row only with the keys of rows they have just found or made, and
    never remove a subject or a course. *)
Theorem serve_all_keeps_references sf w cs :
  references_resolve (w_db w) -> references_resolve (w_db (serve_all sf w cs)).
Proof.
  revert w. induction cs as [|c cs IH]; intros w Hw; [done|].
  unfold serve_all in *. simpl. by apply IH, serve_keeps_references.
Qed.

(** ** Every way an upload fails *)

(** An upload that is answered with anything but 200 has left the
    tables as they were.  Answered with 400 it has touched nothing;
    answered with 500 it has left no file under the sanitised name,
    whether or not one was there before. *)
Theorem upload_error_effects sf ev u file materia periodo w body status w' tr :
  run_request (upload sf ev u (mkUpload (Some file) materia periodo)) w
    = (Returned (Text body status), w', tr) ->
  status <> 200 ->
  w_db w' = w_db w
  /\ (status = 400 /\ w' = w /\ tr = []
      \/ status = 500 /\ w_blobs w' = delete (sf (filename file)) (w_blobs w)).
Proof.
  intros Hrun Hstatus. run_upload_in Hrun.
  repeat (case_match; simpl in *; simplify_eq).
  all: split; [done|].
  all: try (left; repeat split; by destruct w).
  all: right; split; [done|].
  all: try match goal with
           | Habsent : bool_decide _ = false |- _ =>
               apply bool_decide_eq_false in Habsent;
               rewrite <- eq_None_not_Some in Habsent
           end.
  all: rewrite ?delete_insert_eq; try done.
  all: try (symmetry; by apply delete_id).
  all: by rewrite lookup_insert_eq in *.
Qed.

(** ** The same request twice *)

(** What made an upload succeed: a well-formed form, and the save and
    the commit going through. *)
Lemma upload_success_conditions sf ev u file materia periodo w body w' tr :
  run_request (upload sf ev u (mkUpload (Some file) materia periodo)) w
    = (Returned (Text body 200), w', tr) ->
  String.eqb (filename file) "" = false
  /\ negb (Py.truthy materia) || negb (Py.truthy periodo) = false
  /\ fault ev SaveBlob = None
  /\ fault ev CommitUpload = None.
Proof.
  intros Hrun. run_upload_in Hrun.
  by repeat (case_match; simpl in *; simplify_eq).
Qed.

Lemma update_first_same {A} (p : A -> bool) f rows a :
  first_where p rows = Some a -> f a = a -> update_first p f rows = rows.
Proof.
  unfold first_where. induction rows as [|r rows IH]; simpl; [done|].
  destruct (p r).
  - intros [= ->] ->. done.
  - intros Hfound Hf. by rewrite IH.
Qed.

(** The row a successful upload leaves first under its name. *)
Lemma upload_success_row sf ev u file materia periodo w body w' tr :
  run_request (upload sf ev u (mkUpload (Some file) materia periodo)) w
    = (Returned (Text body 200), w', tr) ->
  exists m c,
    first_where (materia_named (Py.strip (default "" materia))) (materias (w_db w'))
      = Some m
    /\ first_where (curso_matches (docente_id u) (materia_id m)
                      (Py.strip (default "" periodo))) (cursos (w_db w')) = Some c
    /\ first_where (has_nombre (sf (filename file))) (archivos (w_db w'))
       = Some (mkArchivo (sf (filename file)) (utcnow ev) (docente_id u) (curso_id c))
    /\ w_blobs w' !! sf (filename file) = Some (stream file).
Proof.
  intros Hrun. apply upload_success in Hrun as (m & c & Hm & Hc & Ha & _ & Hb & _).
  exists m, c. split; [|split; [|split]].
  - destruct Hm as [[Hm ->]|(Hm & -> & ->)]; [done|].
    apply first_where_app_absent; [done | apply materia_named_new].
  - destruct Hc as [[Hc ->]|(Hc & -> & ->)]; [done|].
    apply first_where_app_absent; [done | apply curso_matches_new].
  - rewrite Ha.
    destruct (first_where _ (archivos (w_db w))) as [a|] eqn:Hfound.
    + rewrite (first_where_update_first _ _ _ a Hfound); simpl.
      * apply first_where_holds in Hfound as [Hfound _].
        apply String.eqb_eq in Hfound. by rewrite Hfound.
      * by apply first_where_holds in Hfound as [Hfound _].
    + apply first_where_app_absent; [done | apply String.eqb_refl].
  - rewrite Hb. apply lookup_insert_eq.
Qed.

(** Sending a successful upload again, at the same instant, changes
    nothing: the subject, the course and the row are found, the file
    is written with the same content, and the answer says the file was
    updated. *)
Theorem upload_again_same sf ev u file materia periodo w body w' tr :
  run_request (upload sf ev u (mkUpload (Some file) materia periodo)) w
    = (Returned (Text body 200), w', tr) ->
  run_request (upload sf ev u (mkUpload (Some file) materia periodo)) w'
  = (Returned (Text ("Archivo actualizado y asignado a "
                     +:+ Py.strip (default "" materia) +:+ " - "
                     +:+ Py.strip (default "" periodo) +:+ ".") 200),
     w', [EvSave (sf (filename file)); EvCommit]).
Proof.
  intros Hrun.
  destruct (upload_success_conditions _ _ _ _ _ _ _ _ _ _ Hrun)
    as (Hname & Hfields & Hsave & Hcommit).
  destruct (upload_success_row _ _ _ _ _ _ _ _ _ _ Hrun) as (m & c & Hm & Hc & Ha & Hb).
  pose proof (first_where_holds _ _ _ Hm) as [Hnamed _].
  apply String.eqb_eq in Hnamed.
  unfold upload, run_request, bind, ret, try_except, Db.Materia_first, Db.Curso_first,
    Db.Archivo_first, Db.update_Archivo, Db.commit, Fs.save, mutate, log, set_pending,
    set_disk. simpl.
  rewrite Hname, Hfields. simpl. rewrite Hm; simpl. rewrite Hc; simpl.
  rewrite Hsave; simpl. rewrite Ha; simpl. rewrite Hcommit; simpl.
  rewrite (update_first_same _ _ _ _ Ha) by done.
  rewrite (insert_id _ _ _ Hb), with_archivos_same, Hnamed. by destruct w'.
Qed.

(** Deleting a name a second time, file names being unique, finds
    neither row nor file: the answer is the partial success and
    nothing changes. *)
Theorem delete_again_nothing ev ev' u t f w :
  NoDup (map archivo_nombre (archivos (w_db w))) ->
  fault ev CommitDelete = None -> fault ev RemoveDelete = None ->
  let w' := (run_request (delete_file ev u f) w).1.2 in
  run_request (delete_file ev' t f) w' = (Returned delete_partial_success, w', []).
Proof.
  intros Hnd Hc Hr w'.
  assert (first_where (has_nombre f) (archivos (w_db w')) = None
          /\ w_blobs w' !! f = None) as [Hrow Hblob].
  { subst w'. rewrite delete_file_run by done.
    destruct (w_blobs w !! f) eqn:Hb; simpl;
      (split; [by apply delete_first_unique|]); [apply lookup_delete_eq | done]. }
  clearbody w'. unfold delete_file. run_view. rewrite Hrow. simpl.
  rewrite Hblob. by destruct w'.
Qed.

(** * Concrete runs *)

(** C1, witness: an upload of a new file name whose commit fails ends
    in the state it started from. *)
Lemma upload_failure_cleanup_witness :
  run_request (upload Werkzeug.secure_filename upload_commit_fails ana
                 (form "apuntes.pdf" pdf "Algebra" "2024-1")) w_tarea
  = (Returned (Text ("Error al registrar en DB: database is locked"
                     +:+ ". Archivo eliminado del disco.") 500),
     w_tarea, [EvSave "apuntes.pdf"; EvRollback; EvRemove "apuntes.pdf"])
  /\ w_blobs w_tarea = delete "apuntes.pdf" (w_blobs w_tarea).
Proof.
  assert (run_request (upload Werkzeug.secure_filename upload_commit_fails ana
                         (form "apuntes.pdf" pdf "Algebra" "2024-1")) w_tarea
          = (Returned (Text ("Error al registrar en DB: database is locked"
                             +:+ ". Archivo eliminado del disco.") 500),
             w_tarea, [EvSave "apuntes.pdf"; EvRollback; EvRemove "apuntes.pdf"]))
    as Hrun by (vm_compute; reflexivity).
  split; [exact Hrun|].
  refine (proj1 (proj2 (upload_failure_cleanup _ _ _ _ _ _ _ _ _ _ Hrun _ _))).
  - simpl. tauto.
  - simpl. intuition discriminate.
Defined.

(** C1, counterexample: [tarea.pdf] is on disk with its row; an upload
    of the same name whose commit fails leaves the row and no file, so
    the state is not the one the upload started from. *)
Lemma upload_failure_loses_prior_blob :
  run_request (upload Werkzeug.secure_filename upload_commit_fails ana
                 (form "tarea.pdf" [] "Algebra" "2024-1")) w_tarea
  = (Returned (Text ("Error al registrar en DB: database is locked"
                     +:+ ". Archivo eliminado del disco.") 500),
     w_row_only, [EvSave "tarea.pdf"; EvRollback; EvRemove "tarea.pdf"])
  /\ w_blobs w_tarea !! "tarea.pdf" = Some pdf
  /\ w_blobs w_row_only !! "tarea.pdf" = None
  /\ first_where (has_nombre "tarea.pdf") (archivos (w_db w_row_only))
     = Some (mkArchivo "tarea.pdf" march 1 1)
  /\ w_row_only <> w_tarea.
Proof.
  repeat split; try (vm_compute; reflexivity).
  intros Heq. apply (f_equal (fun w => w_blobs w !! "tarea.pdf")) in Heq.
  vm_compute in Heq. discriminate.
Qed.

(** C2, witness: renaming [tarea.pdf] to [final] with a failing commit. *)
Lemma rename_file_compensates_witness :
  run_request (rename_file Werkzeug.secure_filename rename_commit_fails beto
                 (Some (mkRename (Some "tarea.pdf") (Some "final")))) w_tarea
  = (Returned (Text ("Error al actualizar la DB: database is locked"
                     +:+ ". Se revirtió el cambio en el disco.") 500),
     w_tarea,
     [EvRename "tarea.pdf" "final.pdf"; EvRollback; EvRename "final.pdf" "tarea.pdf"])
  /\ is_Some (w_blobs w_tarea !! "tarea.pdf")
  /\ w_blobs w_tarea !! "final.pdf" = None.
Proof.
  assert (run_request (rename_file Werkzeug.secure_filename rename_commit_fails beto
                         (Some (mkRename (Some "tarea.pdf") (Some "final")))) w_tarea
          = (Returned (Text ("Error al actualizar la DB: database is locked"
                             +:+ ". Se revirtió el cambio en el disco.") 500),
             w_tarea,
             [EvRename "tarea.pdf" "final.pdf"; EvRollback;
              EvRename "final.pdf" "tarea.pdf"]))
    as Hrun by (vm_compute; reflexivity).
  split; [exact Hrun|].
  pose proof (rename_file_compensates _ _ _ _ _ _ _ _ _ Hrun) as Hback.
  assert (final_new_name Werkzeug.secure_filename "final" = "final.pdf") as Hname
    by (vm_compute; reflexivity).
  rewrite Hname in Hback.
  refine (let H := Hback _ _ in conj (proj1 (proj2 H)) (proj1 (proj2 (proj2 H)))).
  - simpl. tauto.
  - simpl. intuition discriminate.
Defined.

(** C3, counterexample: nothing is called [nada.pdf], and deleting it
    is answered as deleting a row whose file is gone is: 202, the
    partial success, not a response of its own. *)
Lemma delete_file_no_not_found :
  first_where (has_nombre "nada.pdf") (archivos (w_db w_tarea)) = None
  /\ w_blobs w_tarea !! "nada.pdf" = None
  /\ run_request (delete_file quiet ana "nada.pdf") w_tarea
     = (Returned delete_partial_success, w_tarea, [])
  /\ run_request (delete_file quiet ana "tarea.pdf") w_row_only
     = (Returned delete_partial_success,
        mkWorld (with_archivos [] db_tarea) ∅, [EvCommit]).
Proof. repeat split; vm_compute; reflexivity. Qed.

(** C3, witness. *)
Lemma delete_file_nothing_present_witness :
  run_request (delete_file quiet ana "nada.pdf") w_tarea
  = (Returned delete_partial_success, w_tarea, []).
Proof.
  apply delete_file_nothing_present; vm_compute; reflexivity.
Defined.

(** C4, witness: Beto deletes [tarea.pdf], row and file. *)
Lemma delete_file_outcome_witness :
  run_request (delete_file quiet beto "tarea.pdf") w_tarea
  = (Returned delete_full_success,
     mkWorld (with_archivos [] db_tarea) ∅, [EvCommit; EvRemove "tarea.pdf"]).
Proof.
  destruct (delete_file_outcome quiet beto "tarea.pdf" w_tarea) as [Hrun _].
  rewrite Hrun by reflexivity. vm_compute. reflexivity.
Defined.

(** C5, at the failing input: a subject of blanks only passes the
    check made on the text as sent, is trimmed to the empty string
    afterwards, and the upload goes through, filing the document under
    a subject without a name. *)
Lemma upload_blank_subject_accepted :
  Py.strip "   " = ""
  /\ run_request (upload Werkzeug.secure_filename quiet ana
                    (form "tarea.pdf" pdf "   " "2024-1")) w_fresh
     = (Returned (Text "Archivo subido y asignado a  - 2024-1." 200),
        mkWorld (mkDatabase [ana; beto] [mkMateria 1 ""] [mkCurso 1 1 1 "2024-1"]
                   [mkArchivo "tarea.pdf" april 1 1])
          {[ "tarea.pdf" := pdf ]},
        [EvFlush; EvFlush; EvSave "tarea.pdf"; EvCommit]).
Proof. split; vm_compute; reflexivity. Qed.

(** C6, witness: nothing is on disk, so the first check fails. *)
Lemma rename_file_preconditions_witness :
  run_request (rename_file Werkzeug.secure_filename quiet ana
                 (Some (mkRename (Some "tarea.pdf") (Some "final")))) w_row_only
  = (Returned rename_old_missing, w_row_only, []).
Proof.
  refine (proj1 (rename_file_preconditions Werkzeug.secure_filename quiet ana
                   "tarea.pdf" "final" w_row_only _ _) _).
  - discriminate.
  - discriminate.
  - vm_compute. reflexivity.
Defined.

(** C7, witness: Ana uploads two files under Algebra, 2024-1, the
    fields padded differently; in between Beto lists the files and
    deletes the first one. *)
Lemma upload_twice_one_course_witness :
  let w1 :=
    mkWorld (mkDatabase [ana; beto] [mkMateria 1 "Algebra"] [mkCurso 1 1 1 "2024-1"]
               [mkArchivo "tarea.pdf" march 1 1])
      {[ "tarea.pdf" := pdf ]} in
  let between :=
    [mkCall quiet (Some beto) (GetList None);
     mkCall quiet (Some beto) (DeleteFile "tarea.pdf")] in
  let w2 :=
    mkWorld (mkDatabase [ana; beto] [mkMateria 1 "Algebra"] [mkCurso 1 1 1 "2024-1"]
               [mkArchivo "guia.pdf" april 1 1])
      {[ "guia.pdf" := pdf ]} in
  run_request (upload Werkzeug.secure_filename (mkEnv march no_fault) ana
                 (form "tarea.pdf" pdf "Algebra" " 2024-1")) w_fresh
  = (Returned (Text "Archivo subido y asignado a Algebra - 2024-1." 200), w1,
     [EvFlush; EvFlush; EvSave "tarea.pdf"; EvCommit])
  /\ run_request (upload Werkzeug.secure_filename quiet ana
                    (form "guia.pdf" pdf " Algebra " "2024-1 "))
       (serve_all Werkzeug.secure_filename w1 between)
     = (Returned (Text "Archivo subido y asignado a Algebra - 2024-1." 200), w2,
        [EvSave "guia.pdf"; EvCommit])
  /\ course_count 1 "Algebra" "2024-1" (w_db w2) = 1%nat.
Proof.
  intros w1 between w2.
  assert (run_request (upload Werkzeug.secure_filename (mkEnv march no_fault) ana
                         (form "tarea.pdf" pdf "Algebra" " 2024-1")) w_fresh
          = (Returned (Text "Archivo subido y asignado a Algebra - 2024-1." 200), w1,
             [EvFlush; EvFlush; EvSave "tarea.pdf"; EvCommit]))
    as Hrun1 by (vm_compute; reflexivity).
  assert (run_request (upload Werkzeug.secure_filename quiet ana
                         (form "guia.pdf" pdf " Algebra " "2024-1 "))
            (serve_all Werkzeug.secure_filename w1 between)
          = (Returned (Text "Archivo subido y asignado a Algebra - 2024-1." 200), w2,
             [EvSave "guia.pdf"; EvCommit]))
    as Hrun2 by (vm_compute; reflexivity).
  split; [exact Hrun1|]. split; [exact Hrun2|].
  refine (proj2 (proj2 (upload_twice_one_course _ _ _ _ _ _ _ _ _ _ _ _ _ _ _ _ _
                          _ _ _ Hrun1 Hrun2)) _).
  - vm_compute. reflexivity.
  - vm_compute. reflexivity.
  - split; apply NoDup_nil_2.
Defined.

(** C8, witness: Beto uploads [tarea.pdf] again, under Fisica, 2024-2. *)
Lemma upload_existing_record_witness :
  let w' :=
    mkWorld (mkDatabase [ana; beto] [mkMateria 1 "Algebra"; mkMateria 2 "Fisica"]
               [mkCurso 1 1 1 "2024-1"; mkCurso 2 2 2 "2024-2"]
               [mkArchivo "tarea.pdf" april 2 2])
      {[ "tarea.pdf" := [] ]} in
  run_request (upload Werkzeug.secure_filename quiet beto
                 (form "tarea.pdf" [] "Fisica" "2024-2")) w_tarea
  = (Returned (Text "Archivo actualizado y asignado a Fisica - 2024-2." 200), w',
     [EvFlush; EvFlush; EvSave "tarea.pdf"; EvCommit])
  /\ count_nombre "tarea.pdf" (archivos (w_db w')) = 1%nat.
Proof.
  intros w'.
  assert (run_request (upload Werkzeug.secure_filename quiet beto
                         (form "tarea.pdf" [] "Fisica" "2024-2")) w_tarea
          = (Returned (Text "Archivo actualizado y asignado a Fisica - 2024-2." 200),
             w', [EvFlush; EvFlush; EvSave "tarea.pdf"; EvCommit]))
    as Hrun by (vm_compute; reflexivity).
  split; [exact Hrun|].
  destruct (upload_existing_record _ _ _ _ _ _ _ _ _ _
              (mkArchivo "tarea.pdf" march 1 1) Hrun)
    as (m & c & _ & _ & _ & _ & _ & _ & Hone).
  - vm_compute. reflexivity.
  - apply Hone. apply NoDup_singleton.
Defined.

(** Searching for [ALG] on the state with [tarea.pdf]. *)
Lemma list_files_result_witness :
  Py.isascii "ALG" = true /\ no_wildcard "ALG" = true
  /\ exists rows,
       run_request (list_files quiet ana (Some "ALG")) w_tarea
       = (Returned (Json (map entry_of rows)), w_tarea, [])
       /\ StronglySorted newer_first rows.
Proof.
  split; [reflexivity|]. split; [reflexivity|].
  destruct (list_files_result quiet ana (Some "ALG") w_tarea eq_refl eq_refl)
    as (rows & Hrun & _ & Hsorted).
  by exists rows.
Defined.

(** C10, witness: Beto is served, deletes and renames the file Ana
    owns; renamed, its row is still Ana's. *)
Lemma views_ignore_teacher_witness :
  run_request (login_required (view_file quiet) (Some beto) "tarea.pdf") w_tarea
  = (Returned (SendFile pdf false), w_tarea, [])
  /\ run_request (login_required (delete_file quiet) (Some beto) "tarea.pdf") w_tarea
     = (Returned delete_full_success, mkWorld (with_archivos [] db_tarea) ∅,
        [EvCommit; EvRemove "tarea.pdf"])
  /\ run_request (login_required (rename_file Werkzeug.secure_filename quiet) (Some beto)
                    (Some (mkRename (Some "tarea.pdf") (Some "B")))) w_tarea
     = (Returned (Text "Archivo renombrado a B.pdf." 200),
        mkWorld (with_archivos [mkArchivo "B.pdf" march 1 1] db_tarea) {[ "B.pdf" := pdf ]},
        [EvRename "tarea.pdf" "B.pdf"; EvCommit]).
Proof.
  pose proof (views_ignore_teacher Werkzeug.secure_filename quiet ana beto
                "tarea.pdf" None w_tarea) as (_ & _ & _ & _ & Hany & Hrename).
  assert (first_where (has_nombre "tarea.pdf") (archivos (w_db w_tarea))
          = Some (mkArchivo "tarea.pdf" march 1 1)) as Hrow by reflexivity.
  assert (w_blobs w_tarea !! "tarea.pdf" = Some pdf) as Hblob
    by (vm_compute; reflexivity).
  assert (first_where (has_nombre (final_new_name Werkzeug.secure_filename "B"))
            (archivos (w_db w_tarea)) = None) as Hclash by reflexivity.
  assert (w_blobs w_tarea !! final_new_name Werkzeug.secure_filename "B" = None) as Hfree
    by (vm_compute; reflexivity).
  destruct (Hany _ _ Hrow Hblob eq_refl eq_refl) as (Hview & _ & Hdelete).
  assert ("tarea.pdf" <> "") as Hold by discriminate.
  assert ("B" <> "") as Hnew by discriminate.
  destruct (Hrename _ _ "B" Hold Hnew Hrow Hblob Hclash Hfree eq_refl eq_refl)
    as (before & after & Hrows & _ & Hrun).
  assert (before = [] /\ after = []) as [-> ->].
  { destruct before as [|x [|y before]]; simpl in Hrows;
      [injection Hrows as <-; done | discriminate..]. }
  split; [exact Hview|]. split.
  - etransitivity; [exact Hdelete|]. vm_compute. reflexivity.
  - etransitivity; [exact Hrun|]. vm_compute. reflexivity.
Defined.

(** An upload of [tarea.pdf] on fresh tables. *)
Lemma upload_stores_blob_and_record_witness :
  run_request (upload Werkzeug.secure_filename quiet ana
                 (form "../tarea.pdf" pdf "Algebra" "2024-1")) w_fresh
  = (Returned (Text "Archivo subido y asignado a Algebra - 2024-1." 200),
     mkWorld (mkDatabase [ana; beto] [mkMateria 1 "Algebra"] [mkCurso 1 1 1 "2024-1"]
                [mkArchivo "tarea.pdf" april 1 1])
       {[ "tarea.pdf" := pdf ]},
     [EvFlush; EvFlush; EvSave "tarea.pdf"; EvCommit])
  /\ ({[ "tarea.pdf" := pdf ]} : gmap string (list Byte.byte)) !! "tarea.pdf" = Some pdf.
Proof.
  assert (run_request (upload Werkzeug.secure_filename quiet ana
                         (form "../tarea.pdf" pdf "Algebra" "2024-1")) w_fresh
          = (Returned (Text "Archivo subido y asignado a Algebra - 2024-1." 200),
             mkWorld (mkDatabase [ana; beto] [mkMateria 1 "Algebra"]
                        [mkCurso 1 1 1 "2024-1"] [mkArchivo "tarea.pdf" april 1 1])
               {[ "tarea.pdf" := pdf ]},
             [EvFlush; EvFlush; EvSave "tarea.pdf"; EvCommit]))
    as Hrun by (vm_compute; reflexivity).
  split; [exact Hrun|].
  exact (proj1 (upload_stores_blob_and_record _ _ _ _ _ _ _ _ _ _ Hrun)).
Defined.

(** Renaming [tarea.pdf] to [B]: the file and the row become [B.pdf]. *)
Lemma rename_file_success_witness :
  run_request (rename_file Werkzeug.secure_filename quiet ana
                 (Some (mkRename (Some "tarea.pdf") (Some "B")))) w_tarea
  = (Returned (Text "Archivo renombrado a B.pdf." 200),
     mkWorld (with_archivos [mkArchivo "B.pdf" march 1 1] db_tarea) {[ "B.pdf" := pdf ]},
     [EvRename "tarea.pdf" "B.pdf"; EvCommit]).
Proof.
  rewrite (rename_file_success Werkzeug.secure_filename quiet ana "tarea.pdf" "B"
             w_tarea pdf (mkArchivo "tarea.pdf" march 1 1));
    try discriminate; try (vm_compute; reflexivity).
Defined.

(** The missing file part. *)
Lemma upload_rejects_missing_fields_witness :
  exists body,
    run_request (upload Werkzeug.secure_filename quiet ana
                   (mkUpload None (Some "Algebra") (Some "2024-1"))) w_tarea
    = (Returned (Text body 400), w_tarea, []).
Proof. apply upload_rejects_missing_fields. by left. Defined.

(** The insert of the subject Fisica fails while [tarea.pdf] is on
    disk: the file is gone afterwards. *)
Lemma upload_early_failure_removes_file_witness :
  exists body,
    run_request (upload Werkzeug.secure_filename
                   (mkEnv april (fun st => match st with
                                           | FlushMateria => Some (IntegrityError "UNIQUE")
                                           | _ => None
                                           end))
                   beto (form "tarea.pdf" [] "Fisica" "2024-1")) w_tarea
    = (Returned (Text body 500), w_row_only, [EvRollback; EvRemove "tarea.pdf"]).
Proof.
  destruct (upload_early_failure_removes_file Werkzeug.secure_filename
              (mkEnv april (fun st => match st with
                                      | FlushMateria => Some (IntegrityError "UNIQUE")
                                      | _ => None
                                      end))
              beto (mkFile "tarea.pdf" []) (Some "Fisica") (Some "2024-1") w_tarea
              (IntegrityError "UNIQUE") pdf) as [body Hrun];
    try discriminate; try (vm_compute; reflexivity).
  exists body. etransitivity; [exact Hrun|]. vm_compute. reflexivity.
Defined.

(** Ana asks for the data of the upload form. *)
Lemma data_for_upload_lists_witness :
  exists data,
    run_data_for_upload no_query_fault ana w_tarea = (data, 200, w_tarea)
    /\ data_materias data = [mkItem 1 "Algebra"]
    /\ (In "2024-1" (data_periodos data)
        <-> exists c, In c (cursos db_tarea) /\ curso_docente_id c = 1
                      /\ curso_periodo c = "2024-1").
Proof.
  destruct (data_for_upload_lists no_query_fault ana w_tarea eq_refl eq_refl)
    as (data & Hrun & _ & Hmaterias & _ & Hperiodos).
  exists data. split; [done|]. split; [done|]. apply Hperiodos.
Defined.

(** The tables are missing. *)
Lemma data_for_upload_failure_witness :
  run_data_for_upload (fun _ => Some (OperationalError "no such table: materia"))
    ana w_tarea
  = (mkData (Some "Las tablas de la base de datos no están inicializadas.") [] [],
     500, w_tarea).
Proof.
  apply (data_for_upload_failure _ ana w_tarea
           (OperationalError "no such table: materia")).
  by left.
Defined.

(** Ana's upload under Fisica, 2024-2 on the state with [tarea.pdf]. *)
Lemma upload_then_data_for_upload_witness :
  exists data,
    run_data_for_upload no_query_fault ana
      (run_request (upload Werkzeug.secure_filename quiet ana
                      (form "guia.pdf" pdf " Fisica" "2024-2 ")) w_tarea).1.2
    = (data, 200,
       (run_request (upload Werkzeug.secure_filename quiet ana
                       (form "guia.pdf" pdf " Fisica" "2024-2 ")) w_tarea).1.2)
    /\ (exists id, In (mkItem id "Fisica") (data_materias data))
    /\ In "2024-2" (data_periodos data).
Proof.
  eapply (upload_then_data_for_upload Werkzeug.secure_filename quiet ana
            (mkFile "guia.pdf" pdf) (Some " Fisica") (Some "2024-2 ") w_tarea).
  vm_compute. reflexivity.
Defined.

(** Beto uploads under 2024-2 and deletes a file; Ana is still offered
    2024-1 only. *)
Lemma data_for_upload_other_teachers_witness :
  data_periodos
    (run_data_for_upload no_query_fault ana
       (serve_all Werkzeug.secure_filename w_tarea
          [mkCall quiet (Some beto) (PostUpload (form "guia.pdf" pdf "Fisica" "2024-2"));
           mkCall quiet (Some beto) (DeleteFile "tarea.pdf")])).1.1
  = data_periodos (run_data_for_upload no_query_fault ana w_tarea).1.1.
Proof.
  apply data_for_upload_other_teachers.
  repeat constructor; simpl; intros t Ht; injection Ht as <-; discriminate.
Defined.

(** A body without a new name. *)
Lemma rename_file_rejects_malformed_witness :
  run_request (rename_file Werkzeug.secure_filename quiet ana
                 (Some (mkRename (Some "tarea.pdf") None))) w_tarea
  = (Returned (Text "Se requiere el nombre antiguo y el nuevo nombre" 400), w_tarea, []).
Proof.
  destruct (rename_file_rejects_malformed Werkzeug.secure_filename quiet ana
              (Some (mkRename (Some "tarea.pdf") None)) w_tarea)
    as (body & Hrun & _ & Hbody).
  - right. eexists. split; [reflexivity|]. by right.
  - rewrite Hrun. f_equal. f_equal. f_equal. f_equal.
    apply (Hbody _ eq_refl). left. by eexists.
Defined.

(** The directory is read-only. *)
Lemma rename_file_fs_failure_witness :
  run_request (rename_file Werkzeug.secure_filename
                 (mkEnv april (fun st => match st with
                                         | RenameBlob => Some (OtherError "EROFS")
                                         | _ => None
                                         end))
                 ana (Some (mkRename (Some "tarea.pdf") (Some "final")))) w_tarea
  = (Returned (Text "Error en el sistema de archivos: EROFS" 500), w_tarea, []).
Proof.
  apply (rename_file_fs_failure Werkzeug.secure_filename _ ana "tarea.pdf" "final"
           w_tarea pdf (mkArchivo "tarea.pdf" march 1 1) (OtherError "EROFS"));
    try discriminate; vm_compute; reflexivity.
Defined.

(** The rename whose commit fails, once more: the state is the same. *)
Lemma rename_file_error_atomic_witness :
  (run_request (rename_file Werkzeug.secure_filename rename_commit_fails ana
                  (Some (mkRename (Some "tarea.pdf") (Some "final")))) w_tarea).1.2
  = w_tarea.
Proof.
  apply (rename_file_error_atomic Werkzeug.secure_filename rename_commit_fails ana
           (Some (mkRename (Some "tarea.pdf") (Some "final"))) w_tarea
           ("Error al actualizar la DB: database is locked"
            +:+ ". Se revirtió el cambio en el disco.") 500 _
           [EvRename "tarea.pdf" "final.pdf"; EvRollback;
            EvRename "final.pdf" "tarea.pdf"]).
  - vm_compute. reflexivity.
  - discriminate.
Defined.

(** Beto views what Ana has just uploaded. *)
Lemma upload_then_view_witness :
  run_request (view_file quiet beto "guia.pdf")
    (mkWorld (mkDatabase [ana; beto] [mkMateria 1 "Algebra"] [mkCurso 1 1 1 "2024-1"]
                [mkArchivo "tarea.pdf" march 1 1; mkArchivo "guia.pdf" april 1 1])
       (<[ "guia.pdf" := pdf ]> {[ "tarea.pdf" := pdf ]}))
  = (Returned (SendFile pdf false),
     mkWorld (mkDatabase [ana; beto] [mkMateria 1 "Algebra"] [mkCurso 1 1 1 "2024-1"]
                [mkArchivo "tarea.pdf" march 1 1; mkArchivo "guia.pdf" april 1 1])
       (<[ "guia.pdf" := pdf ]> {[ "tarea.pdf" := pdf ]}),
     []).
Proof.
  refine (proj1 (upload_then_view Werkzeug.secure_filename quiet quiet ana beto
                   (mkFile "guia.pdf" pdf) (Some "Algebra") (Some "2024-1") w_tarea
                   "Archivo subido y asignado a Algebra - 2024-1." _
                   [EvSave "guia.pdf"; EvCommit] _)).
  vm_compute. reflexivity.
Defined.

(** Ana's upload is listed. *)
Lemma upload_then_list_witness :
  exists rows,
    run_request (list_files quiet beto None)
      (run_request (upload Werkzeug.secure_filename quiet ana
                      (form "guia.pdf" pdf " Algebra" "2024-1 ")) w_tarea).1.2
    = (Returned (Json (map entry_of rows)),
       (run_request (upload Werkzeug.secure_filename quiet ana
                       (form "guia.pdf" pdf " Algebra" "2024-1 ")) w_tarea).1.2, [])
    /\ In (mkRow "guia.pdf" april "Ana" "Algebra" "2024-1") rows.
Proof.
  eapply (upload_then_list Werkzeug.secure_filename quiet quiet ana beto
            (mkFile "guia.pdf" pdf) (Some " Algebra") (Some "2024-1 ") w_tarea).
  - by left.
  - vm_compute. reflexivity.
Defined.

(** After Beto deletes [tarea.pdf] it cannot be viewed. *)
Lemma delete_then_gone_witness :
  run_request (view_file quiet ana "tarea.pdf")
    (run_request (delete_file quiet beto "tarea.pdf") w_tarea).1.2
  = (Returned (Aborted 404),
     (run_request (delete_file quiet beto "tarea.pdf") w_tarea).1.2, []).
Proof.
  exact (proj1 (delete_then_gone quiet quiet beto ana "tarea.pdf" None w_tarea
                  eq_refl eq_refl)).
Defined.

(** [tarea.pdf] is renamed to [final.pdf] and back. *)
Lemma rename_there_and_back_again_witness :
  run_request
    (rename_file Werkzeug.secure_filename quiet beto
       (Some (mkRename (Some "final.pdf") (Some "tarea.pdf"))))
    (run_request (rename_file Werkzeug.secure_filename quiet ana
                    (Some (mkRename (Some "tarea.pdf") (Some "final")))) w_tarea).1.2
  = (Returned (Text "Archivo renombrado a tarea.pdf." 200), w_tarea,
     [EvRename "final.pdf" "tarea.pdf"; EvCommit]).
Proof.
  apply (rename_there_and_back_again Werkzeug.secure_filename quiet quiet ana beto
           "tarea.pdf" "final" "tarea.pdf" w_tarea pdf (mkArchivo "tarea.pdf" march 1 1));
    try discriminate; try (vm_compute; reflexivity).
  apply NoDup_singleton.
Defined.

(** [guia.pdf] is uploaded and deleted. *)
Lemma upload_then_delete_witness :
  run_request (delete_file quiet beto "guia.pdf")
    (mkWorld (mkDatabase [ana; beto] [mkMateria 1 "Algebra"] [mkCurso 1 1 1 "2024-1"]
                [mkArchivo "tarea.pdf" march 1 1; mkArchivo "guia.pdf" april 1 1])
       (<[ "guia.pdf" := pdf ]> {[ "tarea.pdf" := pdf ]}))
  = (Returned delete_full_success, w_tarea, [EvCommit; EvRemove "guia.pdf"]).
Proof.
  refine (upload_then_delete Werkzeug.secure_filename quiet quiet ana beto
            (mkFile "guia.pdf" pdf) (Some "Algebra") (Some "2024-1") w_tarea
            "Archivo subido y asignado a Algebra - 2024-1." _
            [EvSave "guia.pdf"; EvCommit] _ _ _ _ _);
    vm_compute; reflexivity.
Defined.

(** Beto uploads, renames and deletes [guia.pdf]; [tarea.pdf] is as it
    was. *)
Lemma serve_all_frame_witness :
  w_blobs
    (serve_all Werkzeug.secure_filename w_tarea
       [mkCall quiet (Some beto) (PostUpload (form "guia.pdf" [] "Fisica" "2024-2"));
        mkCall quiet (Some beto)
          (PutRename (Some (mkRename (Some "guia.pdf") (Some "manual"))));
        mkCall quiet (Some beto) (DeleteFile "manual.pdf")])
    !! "tarea.pdf"
  = Some pdf.
Proof.
  refine (eq_trans
            (proj1 (serve_all_frame Werkzeug.secure_filename w_tarea _ "tarea.pdf"
                      eq_refl _)) _).
  - repeat constructor; vm_compute; intuition discriminate.
  - vm_compute. reflexivity.
Defined.

(** The state with [tarea.pdf] has unique keys; so has what three
    requests make of it. *)
Lemma serve_all_keeps_keys_witness :
  keys_unique
    (w_db (serve_all Werkzeug.secure_filename w_tarea
             [mkCall quiet (Some beto) (PostUpload (form "tarea.pdf" [] "Fisica" "2024-2"));
              mkCall quiet (Some ana)
                (PutRename (Some (mkRename (Some "tarea.pdf") (Some "final"))));
              mkCall quiet (Some ana) (PostUpload (form "tarea.pdf" pdf "Algebra" "2024-1"))])).
Proof.
  apply serve_all_keeps_keys.
  repeat split; simpl; apply NoDup_singleton.
Defined.

(** The same requests keep the references resolved. *)
Lemma serve_all_keeps_references_witness :
  references_resolve
    (w_db (serve_all Werkzeug.secure_filename w_tarea
             [mkCall quiet (Some beto) (PostUpload (form "tarea.pdf" [] "Fisica" "2024-2"));
              mkCall quiet (Some ana)
                (PutRename (Some (mkRename (Some "tarea.pdf") (Some "final"))));
              mkCall quiet (Some ana) (PostUpload (form "tarea.pdf" pdf "Algebra" "2024-1"))])).
Proof.
  apply serve_all_keeps_references.
  split; simpl.
  - intros a [<-|[]]. eexists. split; [by left | done].
  - intros c [<-|[]]. eexists. split; [by left | done].
Defined.

(** The upload of [tarea.pdf] whose commit fails. *)
Lemma upload_error_effects_witness :
  w_db w_row_only = w_db w_tarea
  /\ (500 = 400 /\ w_row_only = w_tarea
                /\ [EvSave "tarea.pdf"; EvRollback; EvRemove "tarea.pdf"] = []
      \/ 500 = 500 /\ w_blobs w_row_only = delete "tarea.pdf" (w_blobs w_tarea)).
Proof.
  apply (upload_error_effects Werkzeug.secure_filename upload_commit_fails ana
           (mkFile "tarea.pdf" []) (Some "Algebra") (Some "2024-1") w_tarea
           ("Error al registrar en DB: database is locked"
            +:+ ". Archivo eliminado del disco.")).
  - vm_compute. reflexivity.
  - discriminate.
Defined.

(** Ana sends her upload of [guia.pdf] twice. *)
Lemma upload_again_same_witness :
  run_request (upload Werkzeug.secure_filename quiet ana
                 (form "guia.pdf" pdf "Algebra" "2024-1"))
    (mkWorld (mkDatabase [ana; beto] [mkMateria 1 "Algebra"] [mkCurso 1 1 1 "2024-1"]
                [mkArchivo "tarea.pdf" march 1 1; mkArchivo "guia.pdf" april 1 1])
       (<[ "guia.pdf" := pdf ]> {[ "tarea.pdf" := pdf ]}))
  = (Returned (Text "Archivo actualizado y asignado a Algebra - 2024-1." 200),
     mkWorld (mkDatabase [ana; beto] [mkMateria 1 "Algebra"] [mkCurso 1 1 1 "2024-1"]
                [mkArchivo "tarea.pdf" march 1 1; mkArchivo "guia.pdf" april 1 1])
       (<[ "guia.pdf" := pdf ]> {[ "tarea.pdf" := pdf ]}),
     [EvSave "guia.pdf"; EvCommit]).
Proof.
  refine (upload_again_same Werkzeug.secure_filename quiet ana (mkFile "guia.pdf" pdf)
            (Some "Algebra") (Some "2024-1") w_tarea
            "Archivo subido y asignado a Algebra - 2024-1." _
            [EvSave "guia.pdf"; EvCommit] _).
  vm_compute. reflexivity.
Defined.

(** [tarea.pdf] is deleted twice. *)
Lemma delete_again_nothing_witness :
  run_request (delete_file quiet ana "tarea.pdf")
    (run_request (delete_file quiet beto "tarea.pdf") w_tarea).1.2
  = (Returned delete_partial_success,
     (run_request (delete_file quiet beto "tarea.pdf") w_tarea).1.2, []).
Proof.
  apply (delete_again_nothing quiet quiet beto ana "tarea.pdf" w_tarea);
    [apply NoDup_singleton | reflexivity | reflexivity].
Defined.
